(** * Research_explorer: the task chain builder, the orchestrator and the
      web request handler

    A shallow embedding of [crew.py] and [app.py].

    - [PyStr]: Python [str] values as sequences of Unicode code points,
      with the library functions the program calls on them, [str.strip]
      and [textwrap.dedent].
    - [crewai], [flask]: the objects of the two libraries the program
      builds and returns; [Runtime]: the store of task objects, the
      events of a request, and computations over them.
    - [crew]: [crew.py], the agents, [build_crew] and [run].
    - [app]: [app.py], the single route [index].
    - [Observe]: what a caller can see of a chain, and the stubs that
      stand for the engine and for the orchestrator.
    - [PyStrFacts], [crew_facts], [crew_spec], [app_spec]: the proofs.

    Objects that the program refers to by reference (the [Task]s named in
    a [context] list) live in a store and are named by their address. *)

From Stdlib Require Import String Ascii List NArith Arith Bool Lia.
Import ListNotations.

(* ===================================================================== *)
(** ** Python strings *)
(* ===================================================================== *)

Module PyStr.

(** A Python [str]: a sequence of code points. *)
Definition pystr : Type := list N.

(** A source literal made of ASCII characters only. *)
Definition lit (s : string) : pystr := map N_of_ascii (list_ascii_of_string s).

Definition newline : N := 10%N.
Definition dquote : pystr := [34%N].     (* the character U+0022 *)
Definition en_dash : pystr := [8211%N].  (* U+2013 *)
Definition em_dash : pystr := [8212%N].  (* U+2014 *)

Definition pystr_eqb (a b : pystr) : bool :=
  if list_eq_dec N.eq_dec a b then true else false.

(** [a or b] on strings: the empty string is falsy. *)
Definition or_str (a b : pystr) : pystr :=
  match a with
  | [] => b
  | _ :: _ => a
  end.

(** [s.startswith(prefix)] *)
Fixpoint startswith (s prefix : pystr) : bool :=
  match prefix, s with
  | [], _ => true
  | _ :: _, [] => false
  | p :: ps, c :: cs => N.eqb c p && startswith cs ps
  end.

(** [needle in s] *)
Fixpoint contains (s needle : pystr) : bool :=
  startswith s needle ||
  match s with
  | [] => false
  | _ :: r => contains r needle
  end.

(** [all(c != "\n" for c in s)] *)
Definition no_newline (s : pystr) : bool :=
  forallb (fun c => negb (N.eqb c newline)) s.

(** A Python [Dict[str, str]], as its items in insertion order. *)
Definition PyDict : Type := list (pystr * pystr).

Fixpoint dict_get (d : PyDict) (key : pystr) : option pystr :=
  match d with
  | [] => None
  | (k, v) :: r => if pystr_eqb k key then Some v else dict_get r key
  end.

Definition dict_keys (d : PyDict) : list pystr := map fst d.

(** *** [str.strip()] *)

(** The characters [str.isspace] accepts, which are the ones [strip()]
    without argument removes. *)
Definition isspace (c : N) : bool :=
  ((9 <=? c) && (c <=? 13) ||
   (28 <=? c) && (c <=? 32) ||
   (c =? 133) || (c =? 160) || (c =? 5760) ||
   (8192 <=? c) && (c <=? 8202) ||
   (c =? 8232) || (c =? 8233) || (c =? 8239) || (c =? 8287) ||
   (c =? 12288))%N.

Fixpoint lstrip (s : pystr) : pystr :=
  match s with
  | [] => []
  | c :: r => if isspace c then lstrip r else s
  end.

Definition rstrip (s : pystr) : pystr := rev (lstrip (rev s)).

Definition strip (s : pystr) : pystr := rstrip (lstrip s).

(** *** Lines *)

(** [s.split("\n")] *)
Fixpoint split_nl (s : pystr) : list pystr :=
  match s with
  | [] => [[]]
  | c :: r =>
      if N.eqb c newline then [] :: split_nl r
      else match split_nl r with
           | l :: ls => (c :: l) :: ls
           | [] => [[c]]
           end
  end.

(** ["\n".join(lines)] *)
Fixpoint join_nl (lines : list pystr) : pystr :=
  match lines with
  | [] => []
  | [l] => l
  | l :: ls => l ++ newline :: join_nl ls
  end.

(** *** [textwrap.dedent]

    The standard library's function, regular-expression version
    (CPython up to 3.13); [^] and [$] are in MULTILINE mode, so each
    regular expression works line by line. *)

Definition is_sp_tab (c : N) : bool := (c =? 32)%N || (c =? 9)%N.

(** [_whitespace_only_re.sub('', text)]: a line made of one or more blanks
    and tabs, and nothing else, becomes the empty line. *)
Definition blank_whitespace_only (line : pystr) : pystr :=
  if forallb is_sp_tab line then [] else line.

(** One match of [_leading_whitespace_re]: the leading run of blanks and
    tabs of a line, captured when a character that is neither a blank, a
    tab nor a newline follows it. *)
Fixpoint leading_whitespace (line : pystr) : option pystr :=
  match line with
  | [] => None
  | c :: r =>
      if is_sp_tab c then option_map (cons c) (leading_whitespace r)
      else Some []
  end.

(** [_leading_whitespace_re.findall(text)] *)
Fixpoint indents_of (lines : list pystr) : list pystr :=
  match lines with
  | [] => []
  | l :: ls =>
      match leading_whitespace l with
      | Some i => i :: indents_of ls
      | None => indents_of ls
      end
  end.

(** The inner loop [for i, (x, y) in enumerate(zip(margin, indent))]:
    [margin[:i]] at the first position where the two differ, [margin]
    itself when they do not differ on their common length. *)
Fixpoint first_mismatch (margin indent : pystr) : option nat :=
  match margin, indent with
  | x :: m, y :: i =>
      if N.eqb x y then option_map S (first_mismatch m i) else Some 0
  | _, _ => None
  end.

Definition cut_at_mismatch (margin indent : pystr) : pystr :=
  match first_mismatch margin indent with
  | Some i => firstn i margin
  | None => margin
  end.

(** One iteration of [for indent in indents]; [None] is Python's [None]. *)
Definition update_margin (margin : option pystr) (indent : pystr) : option pystr :=
  match margin with
  | None => Some indent
  | Some m =>
      if startswith indent m then Some m
      else if startswith m indent then Some indent
      else Some (cut_at_mismatch m indent)
  end.

Definition margin_of (indents : list pystr) : option pystr :=
  fold_left update_margin indents None.

(** [re.sub] of the margin at the start of a line by the empty string. *)
Definition remove_margin (margin line : pystr) : pystr :=
  if startswith line margin then skipn (length margin) line else line.

Definition dedent (text : pystr) : pystr :=
  let lines := map blank_whitespace_only (split_nl text) in
  match margin_of (indents_of lines) with
  | Some (c :: m) => join_nl (map (remove_margin (c :: m)) lines)
  | _ => join_nl lines
  end.

(** *** Indented blocks

    The shape of the triple-quoted literals of the program: each line of
    a block is either empty or written after a margin. *)

Definition indent_line (margin line : pystr) : pystr :=
  match line with
  | [] => []
  | _ :: _ => margin ++ line
  end.

(** A line that does not start with a blank or a tab. *)
Definition flush_left (line : pystr) : bool :=
  match line with
  | [] => true
  | c :: _ => negb (is_sp_tab c)
  end.

Definition nonempty (line : pystr) : bool :=
  match line with
  | [] => false
  | _ :: _ => true
  end.

End PyStr.

(* ===================================================================== *)
(** ** The libraries' objects and the effects of a request *)
(* ===================================================================== *)

(** The classes imported from [crewai], as far as the program fills them
    in. A [Task] is an object: a [context] list holds references to
    [Task] objects, here their addresses in the store. *)
Module crewai.
Import PyStr.

Record LLM : Type := mkLLM {
  model : pystr;
  temperature : N * N;   (* a decimal fraction: numerator, denominator *)
  use_native : bool
}.

Record Agent : Type := mkAgent {
  role : pystr;
  goal : pystr;
  backstory : pystr;
  agent_llm : LLM;
  verbose : bool;
  allow_delegation : bool
}.

Definition TaskRef : Type := nat.

Record Task : Type := mkTask {
  description : pystr;
  expected_output : pystr;
  agent : Agent;
  context : option (list TaskRef)   (* [None]: the keyword is not given *)
}.

Record Crew : Type := mkCrew {
  tasks : list TaskRef
}.

End crewai.

Module Runtime.
Import PyStr crewai.

(** What a request leaves behind outside its return value. *)
Inductive Event : Type :=
| Flashed (message category : pystr)          (* [flask.flash] *)
| RunCalled (topic instructions : pystr)      (* kept by a stub orchestrator *)
| KickoffCalled (crew_tasks : list TaskRef).  (* kept by a stub engine *)

Record World : Type := mkWorld {
  heap : list Task;      (* the [Task] objects, in allocation order *)
  trace : list Event     (* oldest first *)
}.

Inductive Exn : Type :=
| UpstreamExecutionError (message : pystr)   (* from the engine *)
| BuildError (endpoint : pystr)              (* [url_for] of no route *)
| RuntimeError.   (* a write to the session when no secret key is set *)

Inductive Result (A : Type) : Type :=
| Ok (a : A)
| Raised (e : Exn).
Arguments Ok {A} a.
Arguments Raised {A} e.

(** Computations: a state over [World], with exceptions. *)
Definition M (A : Type) : Type := World -> Result A * World.

Definition ret {A : Type} (a : A) : M A := fun w => (Ok a, w).

Definition bind {A B : Type} (c : M A) (k : A -> M B) : M B :=
  fun w =>
    match c w with
    | (Ok a, w') => k a w'
    | (Raised e, w') => (Raised e, w')
    end.

Definition raise {A : Type} (e : Exn) : M A := fun w => (Raised e, w).

Definition emit (e : Event) : M unit :=
  fun w => (Ok tt, mkWorld (heap w) (trace w ++ [e])).

(** [Task(description=..., expected_output=..., agent=..., context=...)]:
    a new object, at the next free address. *)
Definition new_Task (description expected_output : pystr) (agent : Agent)
    (context : option (list TaskRef)) : M TaskRef :=
  fun w =>
    (Ok (length (heap w)),
     mkWorld (heap w ++ [mkTask description expected_output agent context])
             (trace w)).

(** [Crew(tasks=[...])] *)
Definition new_Crew (tasks : list TaskRef) : M Crew := ret (mkCrew tasks).

Definition deref (w : World) (r : TaskRef) : option Task := nth_error (heap w) r.

End Runtime.

Declare Scope py_scope.
Delimit Scope py_scope with py.
Notation "x <- c ;; k" := (Runtime.bind c (fun x => k))
  (at level 61, c at next level, right associativity) : py_scope.

(* ===================================================================== *)
(** ** crew.py *)
(* ===================================================================== *)

Module crew.
Import PyStr crewai Runtime.
Local Open Scope py_scope.

(** A line of a triple-quoted literal, written sixteen columns in. *)
Definition ind (s : pystr) : pystr := repeat 32%N 16 ++ s.

(** LLM CONFIG *)
Definition llm : LLM :=
  mkLLM (lit "gemini/gemini-2.0-flash") (4%N, 10%N) false.

Record ResearchExplorerCrew : Type := mkResearchExplorerCrew {
  topic_decomposer : Agent;
  info_collector : Agent;
  report_writer : Agent;
  presentation_agent : Agent;
  ppt_content_agent : Agent
}.

Definition __init__ : ResearchExplorerCrew :=
  mkResearchExplorerCrew
    (* 1) Topic Decomposer Agent *)
    (mkAgent
       (lit "Topic Decomposer")
       (lit "Break a broad research topic into 4" ++ en_dash ++
        lit "6 meaningful subtopics or questions " ++
        lit "that a student should explore.")
       (dedent (join_nl
          [ [];
            ind (lit "You are an academic mentor who helps students break down complex");
            ind (lit "research topics into smaller, understandable parts.");
            ind [] ]))
       llm true false)
    (* 2) Info Collector Agent *)
    (mkAgent
       (lit "Information Collector")
       (lit "For each subtopic, gather clear explanations, key methods, pros/cons.")
       (dedent (join_nl
          [ [];
            ind (lit "You are a research assistant for a student and summarize research concepts.");
            ind [] ]))
       llm true false)
    (* 3) Report Writer Agent *)
    (mkAgent
       (lit "Report Writer")
       (lit "Combine all collected information into a mini research report.")
       (dedent (join_nl
          [ [];
            ind (lit "You write exam-ready mini project reports for B.Tech students.");
            ind [] ]))
       llm true false)
    (* 4) Presentation Outline Agent *)
    (mkAgent
       (lit "Presentation Designer")
       (lit "Convert the written report into slide-wise bullet points " ++
        lit "for a short technical presentation.")
       (dedent (join_nl
          [ [];
            ind (lit "You create clean and clear technical PPT outlines.");
            ind [] ]))
       llm true false)
    (* 5) Full PPT Content Agent *)
    (mkAgent
       (lit "PPT Content Writer")
       (lit "Expand the PPT outline into full slide content for a presentation session.")
       (dedent (join_nl
          [ [];
            ind (lit "You create complete slide text based on a PPT outline " ++
                 em_dash ++ lit " including");
            ind (lit "slide headings, explanations, bullet points, examples, and notes.");
            ind [] ]))
       llm true false).

(** The [description=dedent(...)] arguments of the five tasks. The two
    f-strings are formatted first and dedented afterwards. *)

Definition topic_task_text (topic : pystr) : pystr :=
  join_nl
    [ [];
      ind (lit "Break the topic " ++ dquote ++ topic ++ dquote ++
           lit " into 4" ++ en_dash ++ lit "6 subtopics with explanations.");
      [];
      ind (lit "# Topic Decomposition");
      ind [] ].

Definition info_task_text : pystr :=
  join_nl
    [ [];
      ind (lit "Using 'Topic Decomposition', provide definitions, methods, pros/cons.");
      ind (lit "# Collected Information");
      ind [] ].

Definition report_task_text (topic : pystr) : pystr :=
  join_nl
    [ [];
      ind (lit "Write a complete mini-report for the topic: " ++
           dquote ++ topic ++ dquote ++ lit ".");
      ind [] ].

Definition ppt_outline_task_text : pystr :=
  join_nl
    [ [];
      ind (lit "Convert the full mini-report into a slide-wise outline ");
      ind (lit "(8" ++ en_dash ++ lit "10 slides) with titles and bullet points.");
      [];
      ind (lit "Format:");
      ind (lit "# Presentation Outline");
      ind (lit "## Slide 1: ...");
      ind (lit "- Bullet 1");
      ind (lit "- Bullet 2");
      ind [] ].

Definition ppt_content_task_text : pystr :=
  join_nl
    [ [];
      ind (lit "Using the 'Presentation Outline', expand each slide into complete content.");
      [];
      ind (lit "Format:");
      ind (lit "# Full PPT Content");
      [];
      ind (lit "## Slide 1: <Title>");
      ind (lit "- Full sentences explaining the slide");
      ind (lit "- Bullet points with meaningful descriptions");
      ind (lit "- Notes for presenter (if needed)");
      [];
      ind (lit "## Slide 2: <Title>");
      ind (lit "- ...");
      [];
      ind (lit "Ensure content is clear, student-friendly, and presentation-ready.");
      ind [] ].

(** The [expected_output=...] arguments of the five tasks. *)

Definition topic_task_expected_output : pystr :=
  lit "A list of 4-6 subtopics with a short (1-2 sentence) explanation for each, in markdown.".

Definition info_task_expected_output : pystr :=
  lit "For each subtopic, provide a definition, key methods, and pros/cons in structured markdown (subheadings).".

Definition report_task_expected_output : pystr :=
  lit "A cohesive mini-report in markdown: introduction, sections for each subtopic, methods, pros/cons, conclusion, and references.".

Definition ppt_outline_task_expected_output : pystr :=
  lit "An 8-10 slide outline in markdown with slide titles and 3-5 bullet points per slide.".

Definition ppt_content_task_expected_output : pystr :=
  lit "Full slide content for each slide: title, paragraph explanation, bullet details, and optional presenter notes in markdown.".

(** The local [extra_note] of [build_crew]. *)
Definition extra_note_of (instructions : pystr) : pystr :=
  or_str (strip instructions) (lit "No extra instructions.").

Definition build_crew (self : ResearchExplorerCrew)
    (topic instructions : pystr) : M Crew :=
  let extra_note := extra_note_of instructions in
  (* Task 1: Topic Decomposition *)
  topic_task <-
    new_Task
      (dedent (topic_task_text topic))
      topic_task_expected_output
      (topic_decomposer self)
      None ;;
  (* Task 2: Info collection *)
  info_task <-
    new_Task
      (dedent info_task_text)
      info_task_expected_output
      (info_collector self)
      (Some [topic_task]) ;;
  (* Task 3: Report writing *)
  report_task <-
    new_Task
      (dedent (report_task_text topic))
      report_task_expected_output
      (report_writer self)
      (Some [topic_task; info_task]) ;;
  (* Task 4: PPT Outline *)
  ppt_outline_task <-
    new_Task
      (dedent ppt_outline_task_text)
      ppt_outline_task_expected_output
      (presentation_agent self)
      (Some [report_task]) ;;
  (* Task 5: Full PPT Content *)
  ppt_content_task <-
    new_Task
      (dedent ppt_content_task_text)
      ppt_content_task_expected_output
      (ppt_content_agent self)
      (Some [ppt_outline_task; report_task]) ;;
  (* Build and return the Crew with the defined tasks *)
  crew <- new_Crew [topic_task; info_task; report_task;
                    ppt_outline_task; ppt_content_task] ;;
  ret crew.

(** [run], over the engine it hands the crew to: [kickoff] is the
    engine's [Crew.kickoff] and [str_] is Python's [str()] on what it
    returns. *)
Section Orchestrator.
Variable CrewOutput : Type.
Variable kickoff : Crew -> M CrewOutput.
Variable str_ : CrewOutput -> pystr.

Definition run (self : ResearchExplorerCrew)
    (topic instructions : pystr) : M PyDict :=
  crew <- build_crew self topic instructions ;;
  result_markdown <- kickoff crew ;;
  ret [(lit "full_markdown", str_ result_markdown)].
End Orchestrator.

End crew.

(* ===================================================================== *)
(** ** app.py *)
(* ===================================================================== *)

(** What the handler uses of [flask]. *)
Module flask.
Import PyStr Runtime.
Local Open Scope py_scope.

Record Request : Type := mkRequest {
  method : pystr;
  form : list (pystr * pystr)   (* the submitted fields, in order *)
}.

(** [request.form.get(key, default)]: the first value of the field. *)
Fixpoint form_get (form : list (pystr * pystr)) (key default : pystr) : pystr :=
  match form with
  | [] => default
  | (k, v) :: r => if pystr_eqb k key then v else form_get r key default
  end.

(** A value handed to a template. *)
Inductive Value : Type :=
| VStr (s : pystr)
| VDict (d : PyDict).

(** A response, before the template engine or the client sees it. *)
Inductive Response : Type :=
| Redirect (location : pystr)
| Rendered (template : pystr) (values : list (pystr * Value)).

(** Whether the application has a session to write to: Flask opens a
    session only [if app.secret_key], that is when the key is neither
    [None] nor empty; otherwise the request gets the null session, which
    can be read and fails on every write. *)
Definition session_available (secret_key : option pystr) : bool :=
  match secret_key with
  | Some (_ :: _) => true
  | Some [] => false
  | None => false
  end.

(** [flash(message, category)], in an application with the given
    [secret_key]: it stores the message in the session. *)
Definition flash (secret_key : option pystr)
    (message category : pystr) : M unit :=
  if session_available secret_key then emit (Flashed message category)
  else raise RuntimeError.

(** What the application answers to a request for a rule: the response
    of the view, Flask's own answer to OPTIONS, or 405 Method Not
    Allowed. *)
Inductive Answer : Type :=
| FromView (response : Response)
| AutomaticOptions
| MethodNotAllowed.

Definition redirect (location : pystr) : Response := Redirect location.

Definition render_template (template : pystr)
    (values : list (pystr * Value)) : Response :=
  Rendered template values.

End flask.

Module app.
Import PyStr crewai Runtime crew flask.
Local Open Scope py_scope.

(** The URL map: the rule ["/"] of the endpoint [index]. *)
Definition url_map : list (pystr * pystr) := [(lit "index", lit "/")].

Definition url_for (endpoint : pystr) : M pystr :=
  match dict_get url_map endpoint with
  | Some rule => ret rule
  | None => raise (BuildError endpoint)
  end.

(** [index], over the [run] method of the object it constructs and over
    [app.secret_key], which is [os.environ.get("GOOGLE_API_KEY")]: the
    value of the environment variable, [None] when it is not set. *)
Section Handler.
Variable secret_key : option pystr.
Variable run : ResearchExplorerCrew -> pystr -> pystr -> M PyDict.

Definition index (request : Request) : M Response :=
  if pystr_eqb (method request) (lit "POST") then
    let topic := strip (form_get (form request) (lit "topic") []) in
    let extra_instructions :=
      strip (form_get (form request) (lit "instructions") []) in
    match topic with
    | [] =>
        _ <- flash secret_key
               (lit "Please enter a research topic.") (lit "danger") ;;
        location <- url_for (lit "index") ;;
        ret (redirect location)
    | _ :: _ =>
        let crew := __init__ in
        result <- run crew topic extra_instructions ;;
        ret (render_template (lit "report.html")
               [ (lit "topic", VStr topic);
                 (lit "instructions", VStr extra_instructions);
                 (lit "result", VDict result) ])
    end
  else
    ret (render_template (lit "index.html") []).

(** The rule [@app.route("/", methods=["GET", "POST"])] in front of
    [index]. Flask adds HEAD to a rule that lists GET, answers OPTIONS
    itself when the rule does not list it, and answers every other
    method with 405 Method Not Allowed; in the last two cases the view is
    not entered. [request.method] is in upper case. *)
Definition methods : list pystr := [lit "GET"; lit "POST"].

Definition rule_methods : list pystr :=
  if existsb (pystr_eqb (lit "GET")) methods then lit "HEAD" :: methods
  else methods.

Definition dispatch_request (request : Request) : M Answer :=
  if existsb (pystr_eqb (method request)) rule_methods then
    response <- index request ;;
    ret (FromView response)
  else if pystr_eqb (method request) (lit "OPTIONS") then
    ret AutomaticOptions
  else
    ret MethodNotAllowed.
End Handler.

End app.

(* ===================================================================== *)
(** ** Observations: the chain as a caller sees it, and stubs *)
(* ===================================================================== *)

Module Observe.
Import PyStr crewai Runtime crew flask.
Local Open Scope py_scope.

(** The tasks a task names as its context. *)
Definition upstream (t : Task) : list TaskRef :=
  match context t with
  | Some refs => refs
  | None => []
  end.

(** The position of an object in a chain. *)
Fixpoint index_of (chain : list TaskRef) (r : TaskRef) : option nat :=
  match chain with
  | [] => None
  | x :: rest =>
      if Nat.eqb x r then Some 0 else option_map S (index_of rest r)
  end.

(** A task up to the identity of objects: its upstream tasks are given by
    their positions in the chain ([None]: not a task of the chain). *)
Record TaskView : Type := mkTaskView {
  view_description : pystr;
  view_expected_output : pystr;
  view_agent : Agent;
  view_upstream : list (option nat)
}.

Definition task_view (chain : list TaskRef) (t : Task) : TaskView :=
  mkTaskView (description t) (expected_output t) (agent t)
             (map (index_of chain) (upstream t)).

Definition chain_view (w : World) (c : Crew) : list (option TaskView) :=
  map (fun r => option_map (task_view (tasks c)) (deref w r)) (tasks c).

(** A task object moved [base] addresses up, together with the objects
    it refers to. *)
Definition relocate (base : nat) (t : Task) : Task :=
  mkTask (description t) (expected_output t) (agent t)
         (option_map (map (Nat.add base)) (context t)).

(** The five objects [build_crew] allocates, as they are when the store
    is empty before the call. *)
Definition chain_tasks (self : ResearchExplorerCrew) (topic : pystr) : list Task :=
  [ mkTask (dedent (topic_task_text topic)) topic_task_expected_output
           (topic_decomposer self) None;
    mkTask (dedent info_task_text) info_task_expected_output
           (info_collector self) (Some [0]);
    mkTask (dedent (report_task_text topic)) report_task_expected_output
           (report_writer self) (Some [0; 1]);
    mkTask (dedent ppt_outline_task_text) ppt_outline_task_expected_output
           (presentation_agent self) (Some [2]);
    mkTask (dedent ppt_content_task_text) ppt_content_task_expected_output
           (ppt_content_agent self) (Some [3; 2]) ].

(** The description of the first task of the crew a call returned. *)
Definition first_description (out : Result Crew * World) : option pystr :=
  match out with
  | (Ok c, w') =>
      match tasks c with
      | [] => None
      | r :: _ => option_map description (deref w' r)
      end
  | (Raised _, _) => None
  end.

(** No reference to a task at the same or a later position of the chain:
    every upstream reference of the task at position [i] is the task at a
    position [j < i]. *)
Definition backward_refs_only (w : World) (c : Crew) : Prop :=
  forall i r t, nth_error (tasks c) i = Some r -> deref w r = Some t ->
    forall u, In u (upstream t) ->
      exists j, j < i /\ nth_error (tasks c) j = Some u.

(** The invocations a stub orchestrator has recorded. *)
Fixpoint run_calls (tr : list Event) : list (pystr * pystr) :=
  match tr with
  | [] => []
  | RunCalled topic instructions :: r => (topic, instructions) :: run_calls r
  | _ :: r => run_calls r
  end.

Fixpoint flashes (tr : list Event) : list (pystr * pystr) :=
  match tr with
  | [] => []
  | Flashed message category :: r => (message, category) :: flashes r
  | _ :: r => flashes r
  end.

(** A stub orchestrator: records the call and returns a fixed result. *)
Definition stub_run (result : PyDict)
    (self : ResearchExplorerCrew) (topic instructions : pystr) : M PyDict :=
  _ <- emit (RunCalled topic instructions) ;;
  ret result.

(** Modelled from the spec: the external agent-execution engine, which is
    not code of this repository, replaced by a deterministic stub that
    returns a fixed string per task ([outputs], by position in the crew)
    and, run to completion, produces the textual result of the last
    task. *)
Definition stub_kickoff (outputs : nat -> pystr) (c : Crew) : M pystr :=
  _ <- emit (KickoffCalled (tasks c)) ;;
  match rev (map outputs (seq 0 (length (tasks c)))) with
  | final :: _ => ret final
  | [] => raise (UpstreamExecutionError (lit "no tasks"))
  end.

(** Python's [str()] on a [str]. *)
Definition str_of_str (s : pystr) : pystr := s.

End Observe.

(** More observations: the content of a string, the shape of the store,
    and stubs that fail. *)
Module Probes.
Import PyStr crewai Runtime crew flask Observe.
Local Open Scope py_scope.

(** The characters of a string that are not white space, in order. *)
Definition solid (s : pystr) : pystr := filter (fun c => negb (isspace c)) s.

(** Every reference an object of the store holds is to an object
    allocated before it. *)
Definition refs_older (h : list Task) : Prop :=
  forall r t, nth_error h r = Some t ->
    forall u, In u (upstream t) -> u < r.

(** The calls a stub engine has recorded. *)
Fixpoint kickoff_calls (tr : list Event) : list (list TaskRef) :=
  match tr with
  | [] => []
  | KickoffCalled crew_tasks :: r => crew_tasks :: kickoff_calls r
  | _ :: r => kickoff_calls r
  end.

(** A stub orchestrator that records the call and fails. *)
Definition failing_run (e : Exn)
    (self : ResearchExplorerCrew) (topic instructions : pystr) : M PyDict :=
  _ <- emit (RunCalled topic instructions) ;;
  raise e.

(** A stub engine that records the call and fails. *)
Definition failing_kickoff (e : Exn) (c : Crew) : M pystr :=
  _ <- emit (KickoffCalled (tasks c)) ;;
  raise e.

End Probes.

(* ===================================================================== *)
(** ** Facts about the string functions *)
(* ===================================================================== *)

Module PyStrFacts.
Import PyStr.

Lemma startswith_app (p s : pystr) : startswith (p ++ s) p = true.
Proof.
  induction p as [|c p IH]; simpl.
  - destruct s; reflexivity.
  - rewrite N.eqb_refl. exact IH.
Qed.

Lemma contains_unfold (s needle : pystr) :
  contains s needle =
  startswith s needle ||
  match s with [] => false | _ :: r => contains r needle end.
Proof. destruct s; reflexivity. Qed.

Lemma contains_prefix (t b : pystr) : contains (t ++ b) t = true.
Proof. rewrite contains_unfold, startswith_app. reflexivity. Qed.

Lemma contains_cons (c : N) (s t : pystr) :
  contains s t = true -> contains (c :: s) t = true.
Proof.
  intros H. rewrite contains_unfold, H. apply orb_true_r.
Qed.

Lemma contains_app_l (a s t : pystr) :
  contains s t = true -> contains (a ++ s) t = true.
Proof.
  intros H. induction a as [|c a IH]; [exact H|].
  apply contains_cons. exact IH.
Qed.

Lemma contains_app (a t b : pystr) : contains (a ++ t ++ b) t = true.
Proof. apply contains_app_l, contains_prefix. Qed.

Lemma lstrip_blank (s : pystr) : forallb isspace s = true -> lstrip s = [].
Proof.
  induction s as [|c s IH]; simpl; intros H.
  - reflexivity.
  - apply andb_true_iff in H. destruct H as [Hc Hs].
    rewrite Hc. exact (IH Hs).
Qed.

Lemma strip_blank (s : pystr) : forallb isspace s = true -> strip s = [].
Proof.
  intros H. unfold strip, rstrip. rewrite (lstrip_blank s H). reflexivity.
Qed.

Lemma lstrip_nonblank_head (c : N) (s : pystr) :
  isspace c = false -> lstrip (c :: s) = c :: s.
Proof. intros H. simpl. rewrite H. reflexivity. Qed.

(** A string that neither starts nor ends with white space is its own
    [strip()]. *)
Lemma strip_fixed (s : pystr) :
  match s with [] => true | c :: _ => negb (isspace c) end = true ->
  match rev s with [] => true | c :: _ => negb (isspace c) end = true ->
  strip s = s.
Proof.
  intros Hh Ht. unfold strip, rstrip.
  assert (E : lstrip s = s).
  { destruct s as [|c s]; [reflexivity|].
    apply negb_true_iff in Hh. apply lstrip_nonblank_head. exact Hh. }
  rewrite E.
  destruct (rev s) as [|c r] eqn:R.
  - simpl. rewrite <- (rev_involutive s), R. reflexivity.
  - apply negb_true_iff in Ht. rewrite (lstrip_nonblank_head c r Ht).
    rewrite <- R. apply rev_involutive.
Qed.

Lemma or_str_blank (a b : pystr) : a = [] -> or_str a b = b.
Proof. intros ->. reflexivity. Qed.

Lemma pystr_eqb_eq (a b : pystr) : pystr_eqb a b = true <-> a = b.
Proof.
  unfold pystr_eqb. destruct (list_eq_dec N.eq_dec a b); split; congruence.
Qed.

Lemma pystr_eqb_refl (a : pystr) : pystr_eqb a a = true.
Proof. apply pystr_eqb_eq. reflexivity. Qed.

(** *** Lines *)

Lemma split_nl_nonempty (s : pystr) : split_nl s <> [].
Proof.
  induction s as [|c s IH]; simpl.
  - discriminate.
  - destruct (N.eqb c newline); [discriminate|].
    destruct (split_nl s); discriminate.
Qed.

Lemma split_nl_line (l : pystr) : no_newline l = true -> split_nl l = [l].
Proof.
  induction l as [|c l IH]; simpl; intros H.
  - reflexivity.
  - apply andb_true_iff in H. destruct H as [Hc Hl].
    apply negb_true_iff in Hc. rewrite Hc, (IH Hl). reflexivity.
Qed.

Lemma split_nl_first_line (l r : pystr) :
  no_newline l = true -> split_nl (l ++ newline :: r) = l :: split_nl r.
Proof.
  induction l as [|c l IH]; simpl; intros H.
  - reflexivity.
  - apply andb_true_iff in H. destruct H as [Hc Hl].
    apply negb_true_iff in Hc. rewrite Hc, (IH Hl). reflexivity.
Qed.

(** Splitting what was joined gives the lines back, when no line holds a
    newline. *)
Lemma split_join (lines : list pystr) :
  lines <> [] -> forallb no_newline lines = true ->
  split_nl (join_nl lines) = lines.
Proof.
  induction lines as [|l ls IH]; intros Hne H.
  - contradiction.
  - simpl in H. apply andb_true_iff in H. destruct H as [Hl Hls].
    destruct ls as [|l' ls'].
    + simpl. apply split_nl_line. exact Hl.
    + change (join_nl (l :: l' :: ls')) with (l ++ newline :: join_nl (l' :: ls')).
      rewrite (split_nl_first_line _ _ Hl). f_equal.
      apply IH; [discriminate | exact Hls].
Qed.

Lemma no_newline_app (a b : pystr) :
  no_newline (a ++ b) = no_newline a && no_newline b.
Proof. apply forallb_app. Qed.

(** *** [dedent] on an indented block *)

Lemma dedent_margin_nonempty (mg : pystr) (lines : list pystr) :
  mg <> [] ->
  match Some mg with
  | Some (c :: m') => join_nl (map (remove_margin (c :: m')) lines)
  | _ => join_nl lines
  end = join_nl (map (remove_margin mg) lines).
Proof. intros H. destruct mg; [contradiction | reflexivity]. Qed.

Section Block.
Variable m : pystr.
Hypothesis m_blank : forallb is_sp_tab m = true.

Lemma blank_whitespace_only_margin : blank_whitespace_only m = [].
Proof. unfold blank_whitespace_only. rewrite m_blank. reflexivity. Qed.

Lemma no_newline_margin : no_newline m = true.
Proof.
  clear -m_blank. induction m as [|c r IH]; [reflexivity|].
  simpl in *. apply andb_true_iff in m_blank. destruct m_blank as [Hc Hr].
  rewrite (IH Hr), andb_true_r.
  unfold is_sp_tab in Hc. apply orb_true_iff in Hc.
  destruct Hc as [Hc|Hc]; apply N.eqb_eq in Hc; subst c; reflexivity.
Qed.

Lemma blank_indent_line (l : pystr) :
  flush_left l = true ->
  blank_whitespace_only (indent_line m l) = indent_line m l.
Proof.
  destruct l as [|c r]; [reflexivity|]. simpl. intros Hc.
  apply negb_true_iff in Hc.
  unfold blank_whitespace_only. rewrite forallb_app. simpl.
  rewrite Hc, andb_false_r. reflexivity.
Qed.

Lemma leading_whitespace_margin (c : N) (r : pystr) :
  is_sp_tab c = false -> leading_whitespace (m ++ c :: r) = Some m.
Proof.
  clear -m_blank. intros Hc. induction m as [|x xs IH]; simpl in *.
  - rewrite Hc. reflexivity.
  - apply andb_true_iff in m_blank. destruct m_blank as [Hx Hxs].
    rewrite Hx, (IH Hxs). reflexivity.
Qed.

Lemma indents_of_block (body : list pystr) :
  forallb flush_left body = true ->
  indents_of (map (indent_line m) body) =
  repeat m (length (filter nonempty body)).
Proof.
  induction body as [|l ls IH]; simpl; intros H; [reflexivity|].
  apply andb_true_iff in H. destruct H as [Hl Hls].
  destruct l as [|c r]; simpl.
  - exact (IH Hls).
  - apply negb_true_iff in Hl.
    rewrite (leading_whitespace_margin c r Hl), (IH Hls). reflexivity.
Qed.

Lemma indents_of_app (xs ys : list pystr) :
  indents_of (xs ++ ys) = indents_of xs ++ indents_of ys.
Proof.
  induction xs as [|l ls IH]; simpl; [reflexivity|].
  destruct (leading_whitespace l); simpl; rewrite IH; reflexivity.
Qed.

Lemma startswith_refl (s : pystr) : startswith s s = true.
Proof. rewrite <- (app_nil_r s) at 1. apply startswith_app. Qed.

Lemma margin_of_repeat (k : nat) :
  fold_left update_margin (repeat m k) (Some m) = Some m.
Proof.
  induction k as [|k IH]; simpl; [reflexivity|].
  rewrite startswith_refl. exact IH.
Qed.

Lemma skipn_margin (s : pystr) : skipn (length m) (m ++ s) = s.
Proof. clear. induction m as [|x xs IH]; simpl; [reflexivity | exact IH]. Qed.

Hypothesis m_nonempty : m <> [].

Lemma remove_indent_line (l : pystr) : remove_margin m (indent_line m l) = l.
Proof.
  unfold remove_margin. destruct l as [|c r]; simpl.
  - destruct m; [contradiction | reflexivity].
  - rewrite startswith_app. apply skipn_margin.
Qed.

Lemma remove_margin_empty : remove_margin m [] = [].
Proof. unfold remove_margin. destruct m; [contradiction | reflexivity]. Qed.

(** A block of lines that are flush left, written after the margin [m]
    between a first empty line and a last line holding the margin
    only, the way a triple-quoted literal is laid out: [dedent] takes
    the margin away and empties the last line. *)
Lemma dedent_block (body : list pystr) :
  forallb no_newline body = true ->
  forallb flush_left body = true ->
  existsb nonempty body = true ->
  dedent (join_nl ([] :: map (indent_line m) body ++ [m])) =
  join_nl ([] :: body ++ [[]]).
Proof.
  intros Hnl Hfl Hne. unfold dedent.
  rewrite split_join; [| discriminate |].
  2:{ simpl. rewrite forallb_app. simpl.
      rewrite no_newline_margin, andb_true_r.
      clear -Hnl m_blank. induction body as [|l ls IH]; [reflexivity|].
      simpl in *. apply andb_true_iff in Hnl. destruct Hnl as [Hl Hls].
      rewrite (IH Hls), andb_true_r.
      destruct l as [|c r]; [reflexivity|].
      unfold indent_line. rewrite no_newline_app, no_newline_margin. exact Hl. }
  assert (Eb : map blank_whitespace_only ([] :: map (indent_line m) body ++ [m])
               = [] :: map (indent_line m) body ++ [[]]).
  { simpl. f_equal. rewrite map_app. simpl.
    rewrite blank_whitespace_only_margin. f_equal.
    clear -Hfl m_blank. induction body as [|l ls IH]; [reflexivity|].
    simpl in *. apply andb_true_iff in Hfl. destruct Hfl as [Hl Hls].
    rewrite (blank_indent_line l Hl), (IH Hls). reflexivity. }
  rewrite Eb.
  assert (Ei : indents_of ([] :: map (indent_line m) body ++ [[]])
               = repeat m (length (filter nonempty body))).
  { simpl. rewrite indents_of_app, (indents_of_block body Hfl). simpl.
    apply app_nil_r. }
  rewrite Ei.
  assert (Ek : exists k, length (filter nonempty body) = S k).
  { clear -Hne. induction body as [|l ls IH]; simpl in *; [discriminate|].
    destruct (nonempty l); simpl; [eexists; reflexivity | exact (IH Hne)]. }
  destruct Ek as [k Ek]. rewrite Ek.
  unfold margin_of. cbn [repeat fold_left update_margin].
  rewrite margin_of_repeat.
  rewrite (dedent_margin_nonempty m _ m_nonempty).
  f_equal. cbn [map]. rewrite remove_margin_empty. f_equal.
  rewrite map_app. cbn [map]. rewrite remove_margin_empty. f_equal.
  rewrite map_map. clear Hnl Hfl Hne Eb Ei Ek.
  induction body as [|l ls IH]; simpl; [reflexivity|].
  rewrite remove_indent_line, IH. reflexivity.
Qed.
End Block.

End PyStrFacts.

(* ===================================================================== *)
(** ** The task chain builder *)
(* ===================================================================== *)

Module crew_facts.
Import PyStr PyStrFacts crewai Runtime crew Observe.

Lemma margin16_blank : forallb is_sp_tab (repeat 32%N 16) = true.
Proof. reflexivity. Qed.

Lemma margin16_nonempty : repeat 32%N 16 <> [].
Proof. discriminate. Qed.

(** The description of the first task, for a topic on one line. *)
Lemma dedent_topic_task_text (topic : pystr) :
  no_newline topic = true ->
  dedent (topic_task_text topic) =
  join_nl
    [ [];
      lit "Break the topic " ++ dquote ++ topic ++ dquote ++
        lit " into 4" ++ en_dash ++ lit "6 subtopics with explanations.";
      [];
      lit "# Topic Decomposition";
      [] ].
Proof.
  intros H.
  change (topic_task_text topic) with
    (join_nl ([] :: map (indent_line (repeat 32%N 16))
                [ lit "Break the topic " ++ dquote ++ topic ++ dquote ++
                    lit " into 4" ++ en_dash ++ lit "6 subtopics with explanations.";
                  [];
                  lit "# Topic Decomposition" ]
              ++ [repeat 32%N 16])).
  rewrite (dedent_block _ margin16_blank margin16_nonempty).
  - reflexivity.
  - cbn [forallb]. rewrite !no_newline_app, H. reflexivity.
  - reflexivity.
  - reflexivity.
Qed.

(** The description of the third task, for a topic on one line. *)
Lemma dedent_report_task_text (topic : pystr) :
  no_newline topic = true ->
  dedent (report_task_text topic) =
  join_nl
    [ [];
      lit "Write a complete mini-report for the topic: " ++
        dquote ++ topic ++ dquote ++ lit ".";
      [] ].
Proof.
  intros H.
  change (report_task_text topic) with
    (join_nl ([] :: map (indent_line (repeat 32%N 16))
                [ lit "Write a complete mini-report for the topic: " ++
                    dquote ++ topic ++ dquote ++ lit "." ]
              ++ [repeat 32%N 16])).
  rewrite (dedent_block _ margin16_blank margin16_nonempty).
  - reflexivity.
  - cbn [forallb]. rewrite !no_newline_app, H. reflexivity.
  - reflexivity.
  - reflexivity.
Qed.

(** *** Addresses *)

Lemma nth_error_after (A : Type) (h l : list A) (k : nat) :
  nth_error (h ++ l) (length h + k) = nth_error l k.
Proof. induction h as [|x h IH]; simpl; [reflexivity | exact IH]. Qed.

Lemma nth_error_within (A : Type) (l extra : list A) (k : nat) :
  k < length l -> nth_error (l ++ extra) k = nth_error l k.
Proof. intros H. apply nth_error_app1. exact H. Qed.

Lemma eqb_add_cancel (n j k : nat) : Nat.eqb (n + j) (n + k) = Nat.eqb j k.
Proof.
  destruct (Nat.eqb_spec j k) as [->|Hne].
  - apply Nat.eqb_refl.
  - apply Nat.eqb_neq. lia.
Qed.

Lemma index_of_add (n : nat) (ks : list nat) (k : nat) :
  index_of (map (Nat.add n) ks) (n + k) = index_of ks k.
Proof.
  induction ks as [|x ks IH]; simpl; [reflexivity|].
  rewrite eqb_add_cancel, IH. reflexivity.
Qed.

Lemma upstream_relocate (n : nat) (t : Task) :
  upstream (relocate n t) = map (Nat.add n) (upstream t).
Proof. unfold upstream, relocate. simpl. destruct (context t); reflexivity. Qed.

Lemma task_view_relocate (n : nat) (ks : list nat) (t : Task) :
  task_view (map (Nat.add n) ks) (relocate n t) = task_view ks t.
Proof.
  unfold task_view. rewrite upstream_relocate, map_map.
  f_equal. apply map_ext. intros u. apply index_of_add.
Qed.

(** The view of a chain does not depend on where its objects were
    allocated, nor on what was allocated before or after them. *)
Lemma chain_view_relocate (h l extra : list Task) (tr : list Event) (ks : list nat) :
  Forall (fun k => k < length l) ks ->
  chain_view (mkWorld (h ++ map (relocate (length h)) l ++ extra) tr)
             (mkCrew (map (Nat.add (length h)) ks)) =
  chain_view (mkWorld l []) (mkCrew ks).
Proof.
  intros Hks. unfold chain_view, deref. cbn [tasks heap].
  rewrite map_map. apply map_ext_in. intros k Hk.
  rewrite Forall_forall in Hks. specialize (Hks k Hk).
  rewrite nth_error_after, nth_error_within by (rewrite length_map; exact Hks).
  rewrite nth_error_map.
  destruct (nth_error l k) as [t|]; simpl; [|reflexivity].
  rewrite task_view_relocate. reflexivity.
Qed.

(** *** What [build_crew] returns and allocates *)

Lemma build_crew_result (self : ResearchExplorerCrew)
    (topic instructions : pystr) (w : World) :
  build_crew self topic instructions w =
  (Ok (mkCrew (map (Nat.add (length (heap w))) [0; 1; 2; 3; 4])),
   mkWorld (heap w ++ map (relocate (length (heap w))) (chain_tasks self topic))
           (trace w)).
Proof.
  unfold build_crew, bind, new_Task, new_Crew, ret. cbn [heap trace].
  rewrite !length_app. cbn [length].
  rewrite <- !app_assoc. unfold chain_tasks, relocate.
  cbn [app map description expected_output agent context option_map].
  rewrite <- !Nat.add_assoc. cbn [Nat.add]. rewrite !Nat.add_0_r.
  reflexivity.
Qed.

Lemma chain_view_built (self : ResearchExplorerCrew) (topic : pystr) :
  chain_view (mkWorld (chain_tasks self topic) []) (mkCrew [0; 1; 2; 3; 4]) =
  [ Some (mkTaskView (dedent (topic_task_text topic))
            topic_task_expected_output (topic_decomposer self) []);
    Some (mkTaskView (dedent info_task_text)
            info_task_expected_output (info_collector self) [Some 0]);
    Some (mkTaskView (dedent (report_task_text topic))
            report_task_expected_output (report_writer self) [Some 0; Some 1]);
    Some (mkTaskView (dedent ppt_outline_task_text)
            ppt_outline_task_expected_output (presentation_agent self) [Some 2]);
    Some (mkTaskView (dedent ppt_content_task_text)
            ppt_content_task_expected_output (ppt_content_agent self)
            [Some 3; Some 2]) ].
Proof. reflexivity. Qed.

Lemma positions_in_chain (self : ResearchExplorerCrew) (topic : pystr) :
  Forall (fun k => k < length (chain_tasks self topic)) [0; 1; 2; 3; 4].
Proof. repeat constructor. Qed.

End crew_facts.

Module crew_spec.
Import PyStr PyStrFacts crewai Runtime crew Observe crew_facts.

Local Arguments dedent : simpl never.

(** The chain a call builds, in the store the call leaves. *)
Lemma chain_view_after_build (self : ResearchExplorerCrew)
    (topic : pystr) (w : World) (extra : list Task) (tr : list Event) :
  chain_view
    (mkWorld (heap w ++ map (relocate (length (heap w))) (chain_tasks self topic)
                ++ extra) tr)
    (mkCrew (map (Nat.add (length (heap w))) [0; 1; 2; 3; 4])) =
  chain_view (mkWorld (chain_tasks self topic) []) (mkCrew [0; 1; 2; 3; 4]).
Proof. apply chain_view_relocate, positions_in_chain. Qed.

Lemma build_crew_backward (self : ResearchExplorerCrew)
    (topic : pystr) (w : World) :
  backward_refs_only
    (mkWorld (heap w ++ map (relocate (length (heap w))) (chain_tasks self topic))
             (trace w))
    (mkCrew (map (Nat.add (length (heap w))) [0; 1; 2; 3; 4])).
Proof.
  intros i r t Hi Hd u Hu. cbn [tasks map] in *.
  unfold deref in Hd. cbn [heap] in Hd.
  destruct i as [|[|[|[|[|i]]]]]; cbn [nth_error] in Hi;
    try (injection Hi as <-; rewrite nth_error_after in Hd;
         injection Hd as <-; simpl in Hu).
  - contradiction.
  - destruct Hu as [<-|[]]. exists 0. split; [lia | reflexivity].
  - destruct Hu as [<-|[<-|[]]];
      [exists 0 | exists 1]; (split; [lia | reflexivity]).
  - destruct Hu as [<-|[]]. exists 2. split; [lia | reflexivity].
  - destruct Hu as [<-|[<-|[]]];
      [exists 3 | exists 2]; (split; [lia | reflexivity]).
  - destruct i; discriminate.
Qed.

(** C1. For every topic and every instructions string, from every state
    of the store, [build_crew] returns a crew of exactly five distinct
    tasks, in the order decomposition, collection, report, outline,
    full content; collection names decomposition as its context, report
    names decomposition and collection, outline names report, full
    content names outline and report, decomposition names none; and every
    context reference is to a task at an earlier position of the chain. *)
Theorem build_crew_chain (self : ResearchExplorerCrew)
    (topic instructions : pystr) (w : World) :
  exists c w',
    build_crew self topic instructions w = (Ok c, w') /\
    chain_view w' c =
      [ Some (mkTaskView (dedent (topic_task_text topic))
                topic_task_expected_output (topic_decomposer self) []);
        Some (mkTaskView (dedent info_task_text)
                info_task_expected_output (info_collector self) [Some 0]);
        Some (mkTaskView (dedent (report_task_text topic))
                report_task_expected_output (report_writer self)
                [Some 0; Some 1]);
        Some (mkTaskView (dedent ppt_outline_task_text)
                ppt_outline_task_expected_output (presentation_agent self)
                [Some 2]);
        Some (mkTaskView (dedent ppt_content_task_text)
                ppt_content_task_expected_output (ppt_content_agent self)
                [Some 3; Some 2]) ] /\
    NoDup (tasks c) /\
    backward_refs_only w' c.
Proof.
  rewrite build_crew_result. eexists. eexists. split; [reflexivity|].
  split; [|split].
  - rewrite <- (app_nil_r (map _ (chain_tasks self topic))).
    rewrite chain_view_after_build. apply chain_view_built.
  - cbn [tasks map]. repeat constructor; simpl; intuition lia.
  - apply build_crew_backward.
Qed.

(** C8. For every topic, every instructions string and every state of the
    store, [build_crew] returns a crew and raises nothing; it leaves no
    event, and the store it leaves is the one it found followed by the
    five new task objects. *)
Theorem build_crew_total (self : ResearchExplorerCrew)
    (topic instructions : pystr) (w : World) :
  exists c w',
    build_crew self topic instructions w = (Ok c, w') /\
    length (tasks c) = 5 /\
    trace w' = trace w /\
    exists new, heap w' = heap w ++ new /\ length new = 5.
Proof.
  rewrite build_crew_result. eexists. eexists. split; [reflexivity|].
  cbn [tasks heap trace]. repeat split.
  eexists. split; reflexivity.
Qed.

(** C4. The chain does not depend on the instructions: for every topic
    and every two instructions strings, from the same state, [build_crew]
    returns the same crew and leaves the same store. The local
    [extra_note] is the marker text when the instructions are blank. *)
Theorem build_crew_ignores_instructions (self : ResearchExplorerCrew)
    (topic i1 i2 : pystr) (w : World) :
  build_crew self topic i1 w = build_crew self topic i2 w /\
  (forallb isspace i1 = true ->
   extra_note_of i1 = lit "No extra instructions.").
Proof.
  split.
  - rewrite !build_crew_result. reflexivity.
  - intros H. unfold extra_note_of. rewrite (strip_blank i1 H). reflexivity.
Qed.

Lemma build_crew_ignores_instructions_witness :
  build_crew __init__ (lit "Neural Networks") (lit "   ") (mkWorld [] []) =
  build_crew __init__ (lit "Neural Networks") (lit "Focus on IoT") (mkWorld [] []) /\
  extra_note_of (lit "   ") = lit "No extra instructions.".
Proof.
  destruct (build_crew_ignores_instructions __init__ (lit "Neural Networks")
              (lit "   ") (lit "Focus on IoT") (mkWorld [] [])) as [H1 H2].
  split; [exact H1 | apply H2; reflexivity].
Defined.

(** C7. Calling [build_crew] twice in a row with the same arguments gives
    two crews of different objects that are the same up to the identity
    of objects: the same descriptions, expected outputs and agents, and
    the same upstream positions. The second call leaves the first chain
    as it was. *)
Theorem build_crew_twice (self : ResearchExplorerCrew)
    (topic instructions : pystr) (w : World) :
  exists c1 w1 c2 w2,
    build_crew self topic instructions w = (Ok c1, w1) /\
    build_crew self topic instructions w1 = (Ok c2, w2) /\
    chain_view w2 c2 = chain_view w1 c1 /\
    chain_view w2 c1 = chain_view w1 c1 /\
    length (chain_view w1 c1) = 5 /\
    (forall r, In r (tasks c1) -> ~ In r (tasks c2)).
Proof.
  rewrite build_crew_result.
  eexists. eexists. eexists. eexists. split; [reflexivity|].
  rewrite build_crew_result. split; [reflexivity|].
  cbn [heap trace].
  assert (V1 : chain_view
                 (mkWorld (heap w ++ map (relocate (length (heap w)))
                                       (chain_tasks self topic)) (trace w))
                 (mkCrew (map (Nat.add (length (heap w))) [0; 1; 2; 3; 4])) =
               chain_view (mkWorld (chain_tasks self topic) [])
                          (mkCrew [0; 1; 2; 3; 4])).
  { rewrite <- (app_nil_r (map _ (chain_tasks self topic))).
    apply chain_view_relocate, positions_in_chain. }
  rewrite V1. repeat split.
  - rewrite <- (app_nil_r (map (relocate (length (heap w ++ _))) _)).
    apply chain_view_relocate, positions_in_chain.
  - rewrite <- app_assoc. apply chain_view_relocate, positions_in_chain.
  - cbn [tasks map]. rewrite length_app, length_map. cbn [length chain_tasks].
    intros r H1 H2. simpl in H1, H2. lia.
Qed.

(** C10. The descriptions of the second, fourth and fifth task are fixed
    strings; so are all five expected outputs; the agents are those of
    the instance and the upstream positions are fixed. The topic enters
    the descriptions of the first and the third task only, which do
    change with it, and the instructions enter nowhere. *)
Theorem build_crew_fixed_descriptions (self : ResearchExplorerCrew)
    (topic instructions : pystr) (w : World) :
  (exists c w' d1 d3,
    build_crew self topic instructions w = (Ok c, w') /\
    d1 = dedent (topic_task_text topic) /\
    d3 = dedent (report_task_text topic) /\
    chain_view w' c =
      [ Some (mkTaskView d1
                (lit "A list of 4-6 subtopics with a short (1-2 sentence) explanation for each, in markdown.")
                (topic_decomposer self) []);
        Some (mkTaskView
                (join_nl
                   [ [];
                     lit "Using 'Topic Decomposition', provide definitions, methods, pros/cons.";
                     lit "# Collected Information";
                     [] ])
                (lit "For each subtopic, provide a definition, key methods, and pros/cons in structured markdown (subheadings).")
                (info_collector self) [Some 0]);
        Some (mkTaskView d3
                (lit "A cohesive mini-report in markdown: introduction, sections for each subtopic, methods, pros/cons, conclusion, and references.")
                (report_writer self) [Some 0; Some 1]);
        Some (mkTaskView
                (join_nl
                   [ [];
                     lit "Convert the full mini-report into a slide-wise outline ";
                     lit "(8" ++ en_dash ++ lit "10 slides) with titles and bullet points.";
                     [];
                     lit "Format:";
                     lit "# Presentation Outline";
                     lit "## Slide 1: ...";
                     lit "- Bullet 1";
                     lit "- Bullet 2";
                     [] ])
                (lit "An 8-10 slide outline in markdown with slide titles and 3-5 bullet points per slide.")
                (presentation_agent self) [Some 2]);
        Some (mkTaskView
                (join_nl
                   [ [];
                     lit "Using the 'Presentation Outline', expand each slide into complete content.";
                     [];
                     lit "Format:";
                     lit "# Full PPT Content";
                     [];
                     lit "## Slide 1: <Title>";
                     lit "- Full sentences explaining the slide";
                     lit "- Bullet points with meaningful descriptions";
                     lit "- Notes for presenter (if needed)";
                     [];
                     lit "## Slide 2: <Title>";
                     lit "- ...";
                     [];
                     lit "Ensure content is clear, student-friendly, and presentation-ready.";
                     [] ])
                (lit "Full slide content for each slide: title, paragraph explanation, bullet details, and optional presenter notes in markdown.")
                (ppt_content_agent self) [Some 3; Some 2]) ]) /\
  dedent (topic_task_text (lit "a")) <> dedent (topic_task_text (lit "b")) /\
  dedent (report_task_text (lit "a")) <> dedent (report_task_text (lit "b")).
Proof.
  split; [|split].
  - destruct (build_crew_chain self topic instructions w)
      as (c & w' & Hb & Hv & _).
    exists c, w', (dedent (topic_task_text topic)),
      (dedent (report_task_text topic)).
    split; [exact Hb|]. split; [reflexivity|]. split; [reflexivity|].
    rewrite Hv.
    assert (E2 : dedent info_task_text =
                 join_nl
                   [ [];
                     lit "Using 'Topic Decomposition', provide definitions, methods, pros/cons.";
                     lit "# Collected Information";
                     [] ]) by (vm_compute; reflexivity).
    assert (E4 : dedent ppt_outline_task_text =
                 join_nl
                   [ [];
                     lit "Convert the full mini-report into a slide-wise outline ";
                     lit "(8" ++ en_dash ++ lit "10 slides) with titles and bullet points.";
                     [];
                     lit "Format:";
                     lit "# Presentation Outline";
                     lit "## Slide 1: ...";
                     lit "- Bullet 1";
                     lit "- Bullet 2";
                     [] ]) by (vm_compute; reflexivity).
    assert (E5 : dedent ppt_content_task_text =
                 join_nl
                   [ [];
                     lit "Using the 'Presentation Outline', expand each slide into complete content.";
                     [];
                     lit "Format:";
                     lit "# Full PPT Content";
                     [];
                     lit "## Slide 1: <Title>";
                     lit "- Full sentences explaining the slide";
                     lit "- Bullet points with meaningful descriptions";
                     lit "- Notes for presenter (if needed)";
                     [];
                     lit "## Slide 2: <Title>";
                     lit "- ...";
                     [];
                     lit "Ensure content is clear, student-friendly, and presentation-ready.";
                     [] ]) by (vm_compute; reflexivity).
    rewrite E2, E4, E5. reflexivity.
  - vm_compute. discriminate.
  - vm_compute. discriminate.
Qed.

(** The first task of a built chain carries the dedented first text. *)
Lemma first_description_built (self : ResearchExplorerCrew)
    (topic instructions : pystr) (w : World) :
  first_description (build_crew self topic instructions w) =
  Some (dedent (topic_task_text topic)).
Proof.
  rewrite build_crew_result. unfold first_description, deref.
  cbn [tasks map heap]. rewrite nth_error_after. reflexivity.
Qed.

(** C6 fails on the code: for the topic made of [a], a newline, a blank
    and [b], the description of the first task does not contain the
    topic. The text is formatted first and dedented afterwards, so
    [dedent] sees the lines of the topic as lines of the template: the
    second line of the topic starts a line of its own, its single blank
    becomes the common margin, and one blank is taken from the start of
    every line, that of the topic too. *)
Lemma first_description_counterexample :
  first_description
    (build_crew __init__ [97; 10; 32; 98]%N [] (mkWorld [] [])) =
    Some (join_nl
            [ [];
              repeat 32%N 15 ++ lit "Break the topic " ++ dquote ++ lit "a";
              lit "b" ++ dquote ++ lit " into 4" ++ en_dash ++
                lit "6 subtopics with explanations.";
              [];
              repeat 32%N 15 ++ lit "# Topic Decomposition";
              [] ]) /\
  option_map (fun d => contains d [97; 10; 32; 98]%N)
    (first_description
       (build_crew __init__ [97; 10; 32; 98]%N [] (mkWorld [] []))) =
  Some false.
Proof. split; vm_compute; reflexivity. Qed.

(** X17. For every topic that holds no newline character, the
    description of the first task is the template with the topic put in
    as it is, between the two quotation marks; so it contains the topic
    verbatim. *)
Theorem first_description_one_line_topic (self : ResearchExplorerCrew)
    (topic instructions : pystr) (w : World) :
  no_newline topic = true ->
  exists d,
    first_description (build_crew self topic instructions w) = Some d /\
    d = join_nl
          [ [];
            lit "Break the topic " ++ dquote ++ topic ++ dquote ++
              lit " into 4" ++ en_dash ++ lit "6 subtopics with explanations.";
            [];
            lit "# Topic Decomposition";
            [] ] /\
    contains d topic = true.
Proof.
  intros H. eexists. split; [apply first_description_built|].
  split; [apply dedent_topic_task_text; exact H|].
  rewrite (dedent_topic_task_text topic H).
  cbn [join_nl]. change ([] ++ ?x) with x.
  apply contains_cons. rewrite <- !app_assoc.
  apply contains_app_l, contains_app_l, contains_prefix.
Qed.

Lemma first_description_one_line_topic_witness :
  no_newline (lit "Neural Networks") = true /\
  exists d,
    first_description
      (build_crew __init__ (lit "Neural Networks") [] (mkWorld [] [])) = Some d /\
    d = join_nl
          [ [];
            lit "Break the topic " ++ dquote ++ lit "Neural Networks" ++ dquote ++
              lit " into 4" ++ en_dash ++ lit "6 subtopics with explanations.";
            [];
            lit "# Topic Decomposition";
            [] ] /\
    contains d (lit "Neural Networks") = true.
Proof.
  split; [reflexivity|].
  apply (first_description_one_line_topic __init__ (lit "Neural Networks") []
           (mkWorld [] [])).
  reflexivity.
Defined.

(** *** The orchestrator *)

(** [run] hands the built crew to the engine and wraps what the engine
    returns; an exception of the engine goes through. *)
Lemma run_unfold (CrewOutput : Type) (kickoff : Crew -> M CrewOutput)
    (str_ : CrewOutput -> pystr) (self : ResearchExplorerCrew)
    (topic instructions : pystr) (w : World) :
  run CrewOutput kickoff str_ self topic instructions w =
  match kickoff (mkCrew (map (Nat.add (length (heap w))) [0; 1; 2; 3; 4]))
          (mkWorld (heap w ++ map (relocate (length (heap w)))
                                  (chain_tasks self topic)) (trace w)) with
  | (Ok out, w') => (Ok [(lit "full_markdown", str_ out)], w')
  | (Raised e, w') => (Raised e, w')
  end.
Proof.
  unfold run. unfold bind at 1. rewrite build_crew_result.
  unfold bind, ret. destruct (kickoff _ _) as [[out|e] w']; reflexivity.
Qed.

(** C2. With the engine replaced by the stub, [run] returns a dictionary
    with the single key [full_markdown], whose value is the string the
    stub gives for the last of the five tasks; the strings of the first
    four tasks do not appear in it, whatever they are. *)
Theorem run_returns_final_output (self : ResearchExplorerCrew)
    (topic instructions : pystr) (outputs : nat -> pystr) (w : World) :
  (exists w',
     run pystr (stub_kickoff outputs) str_of_str self topic instructions w =
     (Ok [(lit "full_markdown", outputs 4)], w')) /\
  (forall others : nat -> pystr,
     fst (run pystr
            (stub_kickoff (fun i => if Nat.eqb i 4 then outputs 4 else others i))
            str_of_str self topic instructions w) =
     fst (run pystr (stub_kickoff outputs) str_of_str self topic instructions w)).
Proof.
  split.
  - rewrite run_unfold. eexists. reflexivity.
  - intros others. rewrite !run_unfold. reflexivity.
Qed.

End crew_spec.

(* ===================================================================== *)
(** ** The web request handler *)
(* ===================================================================== *)

Module app_spec.
Import PyStr PyStrFacts crewai Runtime crew flask app Observe.

Lemma form_get_dict_get (f : list (pystr * pystr)) (key default : pystr) :
  form_get f key default =
  match dict_get f key with
  | Some v => v
  | None => default
  end.
Proof.
  induction f as [|[k v] f IH]; simpl; [reflexivity|].
  destruct (pystr_eqb k key); [reflexivity | exact IH].
Qed.

Lemma run_calls_app (a b : list Event) :
  run_calls (a ++ b) = run_calls a ++ run_calls b.
Proof.
  induction a as [|e a IH]; simpl; [reflexivity|].
  destruct e; simpl; rewrite IH; reflexivity.
Qed.

Lemma flashes_app (a b : list Event) :
  flashes (a ++ b) = flashes a ++ flashes b.
Proof.
  induction a as [|e a IH]; simpl; [reflexivity|].
  destruct e; simpl; rewrite IH; reflexivity.
Qed.

(** The validation path: what [index] does on a POST whose trimmed topic
    is empty, whatever [run] is. With a session to write to, it flashes
    and redirects; without one, [flash] raises and nothing else happens. *)
Lemma index_empty_topic (secret_key : option pystr)
    (run : ResearchExplorerCrew -> pystr -> pystr -> M PyDict)
    (request : Request) (w : World) :
  method request = lit "POST" ->
  strip (form_get (form request) (lit "topic") []) = [] ->
  index secret_key run request w =
  if session_available secret_key then
    (Ok (Redirect (lit "/")),
     mkWorld (heap w)
       (trace w ++
        [Flashed (lit "Please enter a research topic.") (lit "danger")]))
  else (Raised RuntimeError, w).
Proof.
  intros Hm Ht. unfold index. rewrite Hm, pystr_eqb_refl, Ht.
  unfold flash, bind. destruct (session_available secret_key); reflexivity.
Qed.

(** The orchestration path: what [index] does on a POST whose trimmed
    topic is not empty. *)
Lemma index_nonempty_topic (secret_key : option pystr)
    (run : ResearchExplorerCrew -> pystr -> pystr -> M PyDict)
    (request : Request) (w : World) :
  method request = lit "POST" ->
  strip (form_get (form request) (lit "topic") []) <> [] ->
  index secret_key run request w =
  bind (run __init__
          (strip (form_get (form request) (lit "topic") []))
          (strip (form_get (form request) (lit "instructions") [])))
       (fun result =>
          ret (Rendered (lit "report.html")
                 [ (lit "topic",
                    VStr (strip (form_get (form request) (lit "topic") [])));
                   (lit "instructions",
                    VStr (strip (form_get (form request) (lit "instructions") [])));
                   (lit "result", VDict result) ]))
       w.
Proof.
  intros Hm Ht. unfold index. rewrite Hm, pystr_eqb_refl.
  destruct (strip (form_get (form request) (lit "topic") []));
    [contradiction | reflexivity].
Qed.

(** The orchestration path with a recording stub for [run]. *)
Lemma index_stub_run (secret_key : option pystr) (result : PyDict)
    (request : Request) (w : World) :
  method request = lit "POST" ->
  strip (form_get (form request) (lit "topic") []) <> [] ->
  index secret_key (stub_run result) request w =
  (Ok (Rendered (lit "report.html")
         [ (lit "topic",
            VStr (strip (form_get (form request) (lit "topic") [])));
           (lit "instructions",
            VStr (strip (form_get (form request) (lit "instructions") [])));
           (lit "result", VDict result) ]),
   mkWorld (heap w)
     (trace w ++
      [RunCalled (strip (form_get (form request) (lit "topic") []))
                 (strip (form_get (form request) (lit "instructions") []))])).
Proof.
  intros Hm Ht.
  rewrite (index_nonempty_topic secret_key _ request w Hm Ht). reflexivity.
Qed.

(** C3, as stated, fails: in an application started without
    [GOOGLE_API_KEY], so with no secret key, a POST with a topic of
    blanks is not redirected: [flash] raises on the null session, before
    the redirect. *)
Lemma index_blank_topic_counterexample :
  index None (stub_run [(lit "full_markdown", lit "unused")])
    (mkRequest (lit "POST") [(lit "topic", lit "   ")])
    (mkWorld [] []) =
  (Raised RuntimeError, mkWorld [] []).
Proof. vm_compute. reflexivity. Qed.

(** C3, amended. On a POST whose topic field is absent, empty or made of
    white space only, the orchestrator is never invoked, whatever it is
    and whatever the secret key: a recording stub has recorded no new
    invocation. When the application has a secret key that is not empty,
    the handler takes the validation path: it flashes the warning and
    redirects to the form. *)
Theorem index_rejects_blank_topic (secret_key : option pystr)
    (run : ResearchExplorerCrew -> pystr -> pystr -> M PyDict)
    (request : Request) (w : World) :
  method request = lit "POST" ->
  (dict_get (form request) (lit "topic") = None \/
   exists v, dict_get (form request) (lit "topic") = Some v /\
             forallb isspace v = true) ->
  run_calls (trace (snd (index secret_key run request w))) =
    run_calls (trace w) /\
  (session_available secret_key = true ->
   index secret_key run request w =
     (Ok (Redirect (lit "/")),
      mkWorld (heap w)
        (trace w ++
         [Flashed (lit "Please enter a research topic.") (lit "danger")])) /\
   flashes (trace (snd (index secret_key run request w))) =
     flashes (trace w) ++
     [(lit "Please enter a research topic.", lit "danger")]).
Proof.
  intros Hm Hf.
  assert (Ht : strip (form_get (form request) (lit "topic") []) = []).
  { rewrite form_get_dict_get. destruct Hf as [-> | (v & -> & Hv)].
    - reflexivity.
    - apply strip_blank. exact Hv. }
  rewrite (index_empty_topic secret_key run request w Hm Ht).
  destruct (session_available secret_key); cbn [snd trace].
  - rewrite run_calls_app, flashes_app. simpl. rewrite app_nil_r.
    split; [reflexivity|]. intros _. split; reflexivity.
  - split; [reflexivity | discriminate].
Qed.

Lemma index_rejects_blank_topic_witness :
  index (Some (lit "secret"))
    (stub_run [(lit "full_markdown", lit "unused")])
    (mkRequest (lit "POST")
       [(lit "topic", [32; 9; 160; 10; 12288]%N);
        (lit "instructions", lit "Focus on IoT")])
    (mkWorld [] []) =
  (Ok (Redirect (lit "/")),
   mkWorld []
     [Flashed (lit "Please enter a research topic.") (lit "danger")]) /\
  run_calls
    (trace (snd (index (Some (lit "secret"))
                   (stub_run [(lit "full_markdown", lit "unused")])
                   (mkRequest (lit "POST")
                      [(lit "topic", [32; 9; 160; 10; 12288]%N);
                       (lit "instructions", lit "Focus on IoT")])
                   (mkWorld [] [])))) = [].
Proof.
  destruct (index_rejects_blank_topic (Some (lit "secret"))
              (stub_run [(lit "full_markdown", lit "unused")])
              (mkRequest (lit "POST")
                 [(lit "topic", [32; 9; 160; 10; 12288]%N);
                  (lit "instructions", lit "Focus on IoT")])
              (mkWorld [] []) eq_refl
              (or_intror (ex_intro _ [32; 9; 160; 10; 12288]%N
                            (conj eq_refl eq_refl))))
    as (Hr & Hk).
  destruct (Hk eq_refl) as (Hi & _).
  split; [exact Hi | exact Hr].
Defined.

(** C5, as stated, fails: for the topic field [" x"] and the instructions
    field ["y "], the page is rendered with the trimmed strings ["x"] and
    ["y"], not with the submitted ones. *)
Lemma index_renders_original_counterexample :
  fst (index (Some (lit "secret")) (stub_run [(lit "full_markdown", lit "report")])
         (mkRequest (lit "POST")
            [(lit "topic", lit " x"); (lit "instructions", lit "y ")])
         (mkWorld [] [])) =
    Ok (Rendered (lit "report.html")
          [ (lit "topic", VStr (lit "x"));
            (lit "instructions", VStr (lit "y"));
            (lit "result", VDict [(lit "full_markdown", lit "report")]) ]) /\
  fst (index (Some (lit "secret")) (stub_run [(lit "full_markdown", lit "report")])
         (mkRequest (lit "POST")
            [(lit "topic", lit " x"); (lit "instructions", lit "y ")])
         (mkWorld [] [])) <>
    Ok (Rendered (lit "report.html")
          [ (lit "topic", VStr (lit " x"));
            (lit "instructions", VStr (lit "y "));
            (lit "result", VDict [(lit "full_markdown", lit "report")]) ]).
Proof. split; vm_compute; [reflexivity | discriminate]. Qed.

(** C5, amended. On a POST whose topic is not empty after trimming, the
    handler invokes the orchestrator exactly once, with the trimmed topic
    and the trimmed instructions, and renders the result page with the
    trimmed topic, the trimmed instructions and the dictionary the
    orchestrator returned, as it is; this does not depend on the secret
    key. *)
Theorem index_runs_once_and_renders (secret_key : option pystr)
    (result : PyDict) (request : Request) (w : World) :
  method request = lit "POST" ->
  strip (form_get (form request) (lit "topic") []) <> [] ->
  exists w',
    index secret_key (stub_run result) request w =
      (Ok (Rendered (lit "report.html")
             [ (lit "topic",
                VStr (strip (form_get (form request) (lit "topic") [])));
               (lit "instructions",
                VStr (strip (form_get (form request) (lit "instructions") [])));
               (lit "result", VDict result) ]),
       w') /\
    run_calls (trace w') =
      run_calls (trace w) ++
      [ (strip (form_get (form request) (lit "topic") []),
         strip (form_get (form request) (lit "instructions") [])) ] /\
    flashes (trace w') = flashes (trace w).
Proof.
  intros Hm Ht. rewrite (index_stub_run secret_key result request w Hm Ht).
  eexists. split; [reflexivity|]. cbn [trace].
  rewrite run_calls_app, flashes_app. simpl.
  rewrite app_nil_r. split; reflexivity.
Qed.

(** The end-to-end scenario: strings without white space around them are
    rendered as they were submitted. *)
Lemma index_runs_once_and_renders_witness :
  exists w',
    index (Some (lit "secret"))
      (stub_run [(lit "full_markdown", lit "# Full PPT Content")])
      (mkRequest (lit "POST")
         [(lit "topic", lit "Edge Computing");
          (lit "instructions", lit "Focus on IoT")])
      (mkWorld [] []) =
      (Ok (Rendered (lit "report.html")
             [ (lit "topic", VStr (lit "Edge Computing"));
               (lit "instructions", VStr (lit "Focus on IoT"));
               (lit "result",
                VDict [(lit "full_markdown", lit "# Full PPT Content")]) ]),
       w') /\
    run_calls (trace w') = [(lit "Edge Computing", lit "Focus on IoT")].
Proof.
  destruct (index_runs_once_and_renders (Some (lit "secret"))
              [(lit "full_markdown", lit "# Full PPT Content")]
              (mkRequest (lit "POST")
                 [(lit "topic", lit "Edge Computing");
                  (lit "instructions", lit "Focus on IoT")])
              (mkWorld [] []) eq_refl)
    as (w' & Hi & Hr & _).
  - vm_compute. discriminate.
  - exists w'. split; [exact Hi | exact Hr].
Defined.

(** C9. On every POST, the instructions the orchestrator receives and the
    instructions the result page is rendered with are the submitted field
    with the white space at both ends removed; when the topic is blank
    the instructions go nowhere: no page is rendered and the orchestrator
    is not invoked. *)
Theorem index_strips_instructions (secret_key : option pystr)
    (result : PyDict) (request : Request) (w : World) :
  method request = lit "POST" ->
  (strip (form_get (form request) (lit "topic") []) = [] /\
   fst (index secret_key (stub_run result) request w) =
     (if session_available secret_key then Ok (Redirect (lit "/"))
      else Raised RuntimeError) /\
   run_calls (trace (snd (index secret_key (stub_run result) request w))) =
     run_calls (trace w))
  \/
  (exists topic,
     topic = strip (form_get (form request) (lit "topic") []) /\
     topic <> [] /\
     fst (index secret_key (stub_run result) request w) =
       Ok (Rendered (lit "report.html")
             [ (lit "topic", VStr topic);
               (lit "instructions",
                VStr (strip (form_get (form request) (lit "instructions") [])));
               (lit "result", VDict result) ]) /\
     run_calls (trace (snd (index secret_key (stub_run result) request w))) =
       run_calls (trace w) ++
       [ (topic, strip (form_get (form request) (lit "instructions") [])) ]).
Proof.
  intros Hm.
  destruct (strip (form_get (form request) (lit "topic") [])) as [|c r] eqn:Et.
  - left. split; [reflexivity|].
    rewrite (index_empty_topic secret_key _ request w Hm Et).
    destruct (session_available secret_key); cbn [fst snd trace].
    + split; [reflexivity|]. rewrite run_calls_app. simpl. apply app_nil_r.
    + split; reflexivity.
  - right. exists (c :: r). split; [reflexivity|]. split; [discriminate|].
    assert (Hne : strip (form_get (form request) (lit "topic") []) <> [])
      by (rewrite Et; discriminate).
    rewrite (index_stub_run secret_key result request w Hm Hne).
    cbn [fst snd trace].
    rewrite run_calls_app, Et. split; reflexivity.
Qed.

Lemma index_strips_instructions_witness :
  method (mkRequest (lit "POST")
            [(lit "topic", lit "Edge Computing");
             (lit "instructions", lit "  Focus on IoT" ++ [32; 10]%N)]) =
    lit "POST" /\
  fst (index (Some (lit "secret"))
         (stub_run [(lit "full_markdown", lit "# Full PPT Content")])
         (mkRequest (lit "POST")
            [(lit "topic", lit "Edge Computing");
             (lit "instructions", lit "  Focus on IoT" ++ [32; 10]%N)])
         (mkWorld [] [])) =
    Ok (Rendered (lit "report.html")
          [ (lit "topic", VStr (lit "Edge Computing"));
            (lit "instructions", VStr (lit "Focus on IoT"));
            (lit "result",
             VDict [(lit "full_markdown", lit "# Full PPT Content")]) ]).
Proof.
  split; [reflexivity|].
  destruct (index_strips_instructions (Some (lit "secret"))
              [(lit "full_markdown", lit "# Full PPT Content")]
              (mkRequest (lit "POST")
                 [(lit "topic", lit "Edge Computing");
                  (lit "instructions", lit "  Focus on IoT" ++ [32; 10]%N)])
              (mkWorld [] []) eq_refl)
    as [(Ht & _) | (topic & Ht & _ & Hf & _)].
  - vm_compute in Ht. discriminate.
  - rewrite Hf, Ht. vm_compute. reflexivity.
Defined.

End app_spec.

(* ===================================================================== *)
(** ** More on [strip] and [dedent] *)
(* ===================================================================== *)

Module PyStrProps.
Import PyStr PyStrFacts Probes.

(** *** [strip] *)

Lemma lstrip_split (s : pystr) :
  exists ws, s = ws ++ lstrip s /\ forallb isspace ws = true.
Proof.
  induction s as [|c s (ws & E & H)]; simpl.
  - exists []. split; reflexivity.
  - destruct (isspace c) eqn:Hc.
    + exists (c :: ws). simpl. rewrite Hc, H. split; [f_equal; exact E | reflexivity].
    + exists []. split; reflexivity.
Qed.

Lemma lstrip_head (s : pystr) :
  match lstrip s with
  | [] => true
  | c :: _ => negb (isspace c)
  end = true.
Proof.
  induction s as [|c s IH]; simpl; [reflexivity|].
  destruct (isspace c) eqn:Hc; [exact IH|]. simpl. rewrite Hc. reflexivity.
Qed.

Lemma forallb_rev (A : Type) (f : A -> bool) (l : list A) :
  forallb f (rev l) = forallb f l.
Proof.
  induction l as [|x l IH]; simpl; [reflexivity|].
  rewrite forallb_app, IH. simpl. rewrite andb_true_r. apply andb_comm.
Qed.

Lemma rstrip_split (s : pystr) :
  exists ws, s = rstrip s ++ ws /\ forallb isspace ws = true.
Proof.
  destruct (lstrip_split (rev s)) as (ws & E & H).
  exists (rev ws). split.
  - unfold rstrip. rewrite <- rev_app_distr, <- E. symmetry. apply rev_involutive.
  - rewrite forallb_rev. exact H.
Qed.

Lemma rstrip_last (s : pystr) :
  match rev (rstrip s) with
  | [] => true
  | c :: _ => negb (isspace c)
  end = true.
Proof. unfold rstrip. rewrite rev_involutive. apply lstrip_head. Qed.

(** [strip] takes away white space at the two ends and nothing else. *)
Lemma strip_split (s : pystr) :
  exists ws1 ws2,
    s = ws1 ++ strip s ++ ws2 /\
    forallb isspace ws1 = true /\ forallb isspace ws2 = true.
Proof.
  destruct (lstrip_split s) as (ws1 & E1 & H1).
  destruct (rstrip_split (lstrip s)) as (ws2 & E2 & H2).
  exists ws1, ws2. unfold strip. rewrite <- E2. auto.
Qed.

Lemma strip_head (s : pystr) :
  match strip s with
  | [] => true
  | c :: _ => negb (isspace c)
  end = true.
Proof.
  destruct (rstrip_split (lstrip s)) as (ws & E & H).
  pose proof (lstrip_head s) as Hh. unfold strip.
  destruct (rstrip (lstrip s)) as [|c r]; [reflexivity|].
  rewrite E in Hh. exact Hh.
Qed.

Lemma strip_last (s : pystr) :
  match rev (strip s) with
  | [] => true
  | c :: _ => negb (isspace c)
  end = true.
Proof. apply rstrip_last. Qed.

Lemma strip_idempotent (s : pystr) : strip (strip s) = strip s.
Proof. apply strip_fixed; [apply strip_head | apply strip_last]. Qed.

Lemma strip_empty_blank (s : pystr) : strip s = [] -> forallb isspace s = true.
Proof.
  intros H. destruct (strip_split s) as (ws1 & ws2 & E & H1 & H2).
  rewrite E, H, !forallb_app, H1, H2. reflexivity.
Qed.

(** A string with a character that is not white space does not strip to
    the empty string. *)
Lemma strip_nonblank (s : pystr) :
  existsb (fun c => negb (isspace c)) s = true -> strip s <> [].
Proof.
  intros H E. apply strip_empty_blank in E.
  apply existsb_exists in H. destruct H as (c & Hin & Hc).
  rewrite forallb_forall in E. rewrite (E c Hin) in Hc. discriminate.
Qed.

(** *** Lines *)

Lemma join_nl_cons (l : pystr) (ls : list pystr) :
  ls <> [] -> join_nl (l :: ls) = l ++ newline :: join_nl ls.
Proof. destruct ls; [contradiction | reflexivity]. Qed.

(** Joining what was split gives the string back. *)
Lemma join_split (s : pystr) : join_nl (split_nl s) = s.
Proof.
  induction s as [|c s IH]; [reflexivity|]. simpl.
  destruct (N.eqb_spec c newline) as [->|Hc].
  - rewrite join_nl_cons by apply split_nl_nonempty. rewrite IH. reflexivity.
  - pose proof (split_nl_nonempty s) as Hne.
    destruct (split_nl s) as [|l ls]; [contradiction|].
    destruct ls as [|l' ls'].
    + simpl in *. rewrite IH. reflexivity.
    + rewrite join_nl_cons in IH by discriminate.
      rewrite join_nl_cons by discriminate. cbn [app]. f_equal. exact IH.
Qed.

Lemma split_nl_lines (s : pystr) : forallb no_newline (split_nl s) = true.
Proof.
  induction s as [|c s IH]; [reflexivity|]. simpl.
  destruct (N.eqb c newline) eqn:Hc.
  - simpl. exact IH.
  - destruct (split_nl s) as [|l ls]; simpl in *.
    + rewrite Hc. reflexivity.
    + rewrite Hc. exact IH.
Qed.

Lemma length_split_app (a b : pystr) :
  length (split_nl (a ++ b)) + 1 = length (split_nl a) + length (split_nl b).
Proof.
  induction a as [|c a IH]; simpl.
  - lia.
  - destruct (N.eqb c newline); simpl.
    + lia.
    + pose proof (split_nl_nonempty (a ++ b)) as H1.
      pose proof (split_nl_nonempty a) as H2.
      destruct (split_nl (a ++ b)); [contradiction|].
      destruct (split_nl a); [contradiction|]. simpl in *. lia.
Qed.

(** *** What [dedent] keeps *)

Lemma sp_tab_isspace (c : N) : is_sp_tab c = true -> isspace c = true.
Proof.
  unfold is_sp_tab. intros H. apply orb_true_iff in H.
  destruct H as [H|H]; apply N.eqb_eq in H; subst c; reflexivity.
Qed.

Lemma sp_tab_not_newline (c : N) :
  is_sp_tab c = true -> negb (N.eqb c newline) = true.
Proof.
  unfold is_sp_tab. intros H. apply orb_true_iff in H.
  destruct H as [H|H]; apply N.eqb_eq in H; subst c; reflexivity.
Qed.

Lemma solid_app (a b : pystr) : solid (a ++ b) = solid a ++ solid b.
Proof. apply filter_app. Qed.

Lemma solid_blank (l : pystr) : forallb is_sp_tab l = true -> solid l = [].
Proof.
  induction l as [|c l IH]; simpl; intros H; [reflexivity|].
  apply andb_true_iff in H. destruct H as [Hc Hl].
  rewrite (sp_tab_isspace c Hc). simpl. exact (IH Hl).
Qed.

Lemma solid_join (ls : list pystr) : solid (join_nl ls) = concat (map solid ls).
Proof.
  induction ls as [|l ls IH]; [reflexivity|].
  destruct ls as [|l' ls'].
  - simpl. symmetry. apply app_nil_r.
  - rewrite join_nl_cons by discriminate.
    rewrite solid_app. cbn [map concat]. f_equal. exact IH.
Qed.

Lemma startswith_split (l m : pystr) :
  startswith l m = true -> l = m ++ skipn (length m) l.
Proof.
  revert l. induction m as [|x m IH]; intros l H; [reflexivity|].
  destruct l as [|c l]; [discriminate|]. simpl in H.
  apply andb_true_iff in H. destruct H as [Hc Hl].
  apply N.eqb_eq in Hc. subst x. simpl. f_equal. exact (IH l Hl).
Qed.

Lemma leading_whitespace_blank (l i : pystr) :
  leading_whitespace l = Some i -> forallb is_sp_tab i = true.
Proof.
  revert i. induction l as [|c l IH]; simpl; intros i H; [discriminate|].
  destruct (is_sp_tab c) eqn:Hc.
  - destruct (leading_whitespace l) as [j|]; [|discriminate].
    injection H as <-. simpl. rewrite Hc. exact (IH j eq_refl).
  - injection H as <-. reflexivity.
Qed.

Lemma indents_of_blank (ls : list pystr) :
  forallb (forallb is_sp_tab) (indents_of ls) = true.
Proof.
  induction ls as [|l ls IH]; [reflexivity|]. simpl.
  destruct (leading_whitespace l) as [i|] eqn:E; [|exact IH].
  simpl. rewrite (leading_whitespace_blank l i E). exact IH.
Qed.

Lemma firstn_blank (n : nat) (m : pystr) :
  forallb is_sp_tab m = true -> forallb is_sp_tab (firstn n m) = true.
Proof.
  revert n. induction m as [|x m IH]; intros [|n] H; try reflexivity.
  simpl in *. apply andb_true_iff in H. destruct H as [Hx Hm].
  rewrite Hx. exact (IH n Hm).
Qed.

Lemma update_margin_blank (m : option pystr) (i : pystr) :
  match m with Some x => forallb is_sp_tab x | None => true end = true ->
  forallb is_sp_tab i = true ->
  match update_margin m i with
  | Some x => forallb is_sp_tab x
  | None => true
  end = true.
Proof.
  intros Hm Hi. destruct m as [x|]; simpl; [|exact Hi].
  destruct (startswith i x); [exact Hm|].
  destruct (startswith x i); [exact Hi|].
  unfold cut_at_mismatch. destruct (first_mismatch x i); [|exact Hm].
  apply firstn_blank. exact Hm.
Qed.

Lemma margin_of_blank (inds : list pystr) :
  forallb (forallb is_sp_tab) inds = true ->
  match margin_of inds with
  | Some x => forallb is_sp_tab x
  | None => true
  end = true.
Proof.
  unfold margin_of.
  assert (G : forall (acc : option pystr),
             match acc with Some x => forallb is_sp_tab x | None => true end = true ->
             forallb (forallb is_sp_tab) inds = true ->
             match fold_left update_margin inds acc with
             | Some x => forallb is_sp_tab x
             | None => true
             end = true).
  { induction inds as [|i inds IH]; intros acc Ha H; [exact Ha|].
    simpl in *. apply andb_true_iff in H. destruct H as [Hi Hinds].
    apply IH; [apply update_margin_blank; assumption | exact Hinds]. }
  intros H. apply G; [reflexivity | exact H].
Qed.

Lemma blank_whitespace_only_solid (l : pystr) :
  solid (blank_whitespace_only l) = solid l.
Proof.
  unfold blank_whitespace_only. destruct (forallb is_sp_tab l) eqn:H.
  - symmetry. apply solid_blank. exact H.
  - reflexivity.
Qed.

Lemma remove_margin_solid (m l : pystr) :
  forallb is_sp_tab m = true -> solid (remove_margin m l) = solid l.
Proof.
  intros Hm. unfold remove_margin. destruct (startswith l m) eqn:H; [|reflexivity].
  rewrite (startswith_split l m H) at 2.
  rewrite solid_app, (solid_blank m Hm). reflexivity.
Qed.

Lemma no_newline_skipn (n : nat) (l : pystr) :
  no_newline l = true -> no_newline (skipn n l) = true.
Proof.
  revert n. induction l as [|c l IH]; intros [|n] H; try exact H; try reflexivity.
  simpl in *. apply andb_true_iff in H. destruct H as [_ Hl]. exact (IH n Hl).
Qed.

Lemma blank_whitespace_only_line (l : pystr) :
  no_newline l = true -> no_newline (blank_whitespace_only l) = true.
Proof.
  intros H. unfold blank_whitespace_only.
  destruct (forallb is_sp_tab l); [reflexivity | exact H].
Qed.

Lemma remove_margin_line (m l : pystr) :
  no_newline l = true -> no_newline (remove_margin m l) = true.
Proof.
  intros H. unfold remove_margin.
  destruct (startswith l m); [apply no_newline_skipn; exact H | exact H].
Qed.

(** [dedent] works line by line: it maps one function over the lines, and
    that function deletes blanks and tabs only and puts in no newline. *)
Lemma dedent_by_line (s : pystr) :
  exists g : pystr -> pystr,
    dedent s = join_nl (map g (split_nl s)) /\
    (forall l, solid (g l) = solid l) /\
    (forall l, no_newline l = true -> no_newline (g l) = true).
Proof.
  unfold dedent.
  pose proof (margin_of_blank _ (indents_of_blank
                (map blank_whitespace_only (split_nl s)))) as Hm.
  destruct (margin_of (indents_of (map blank_whitespace_only (split_nl s))))
    as [[|c m]|].
  - exists blank_whitespace_only. split; [reflexivity|].
    split; [apply blank_whitespace_only_solid | apply blank_whitespace_only_line].
  - exists (fun l => remove_margin (c :: m) (blank_whitespace_only l)).
    split; [rewrite map_map; reflexivity|]. split.
    + intros l. rewrite (remove_margin_solid _ _ Hm).
      apply blank_whitespace_only_solid.
    + intros l H. apply remove_margin_line, blank_whitespace_only_line, H.
  - exists blank_whitespace_only. split; [reflexivity|].
    split; [apply blank_whitespace_only_solid | apply blank_whitespace_only_line].
Qed.

(** [dedent] keeps every character that is not white space, in order. *)
Lemma dedent_solid (s : pystr) : solid (dedent s) = solid s.
Proof.
  destruct (dedent_by_line s) as (g & -> & Hg & _).
  rewrite solid_join, map_map. rewrite <- (join_split s) at 2.
  rewrite solid_join. f_equal. apply map_ext. exact Hg.
Qed.

(** [dedent] keeps the number of lines. *)
Lemma dedent_lines (s : pystr) :
  length (split_nl (dedent s)) = length (split_nl s).
Proof.
  destruct (dedent_by_line s) as (g & -> & _ & Hg).
  rewrite split_join.
  - apply length_map.
  - pose proof (split_nl_nonempty s). destruct (split_nl s); [contradiction | discriminate].
  - pose proof (split_nl_lines s) as H. rewrite forallb_forall in H.
    apply forallb_forall. intros l Hl. apply in_map_iff in Hl.
    destruct Hl as (l0 & <- & Hl0). apply Hg, H, Hl0.
Qed.

End PyStrProps.

(* ===================================================================== *)
(** ** More on the task chain builder and the orchestrator *)
(* ===================================================================== *)

Module crew_props.
Import PyStr PyStrFacts PyStrProps crewai Runtime crew Observe Probes crew_facts.

Local Arguments dedent : simpl never.

(** The formatted text of the first task: the topic between two fixed
    strings. *)
Lemma topic_task_text_shape (topic : pystr) :
  topic_task_text topic =
  (newline :: ind (lit "Break the topic " ++ dquote)) ++ topic ++
  (dquote ++ lit " into 4" ++ en_dash ++ lit "6 subtopics with explanations." ++
   newline :: newline :: ind (lit "# Topic Decomposition") ++ newline :: ind []).
Proof.
  unfold topic_task_text, ind. cbn [join_nl]. rewrite <- !app_assoc.
  reflexivity.
Qed.

Lemma report_task_text_shape (topic : pystr) :
  report_task_text topic =
  (newline :: ind (lit "Write a complete mini-report for the topic: " ++ dquote))
  ++ topic ++ (dquote ++ lit "." ++ newline :: ind []).
Proof.
  unfold report_task_text, ind. cbn [join_nl]. rewrite <- !app_assoc.
  reflexivity.
Qed.

(** The descriptions of the first and of the third task, for a topic on
    one line: the topic between two fixed strings. *)
Lemma topic_description_shape (topic : pystr) :
  no_newline topic = true ->
  dedent (topic_task_text topic) =
  (newline :: lit "Break the topic " ++ dquote) ++ topic ++
  (dquote ++ lit " into 4" ++ en_dash ++ lit "6 subtopics with explanations." ++
   newline :: newline :: lit "# Topic Decomposition" ++ [newline]).
Proof.
  intros H. rewrite (dedent_topic_task_text topic H).
  cbn [join_nl]. rewrite <- !app_assoc. reflexivity.
Qed.

Lemma report_description_shape (topic : pystr) :
  no_newline topic = true ->
  dedent (report_task_text topic) =
  (newline :: lit "Write a complete mini-report for the topic: " ++ dquote)
  ++ topic ++ (dquote ++ lit "." ++ [newline]).
Proof.
  intros H. rewrite (dedent_report_task_text topic H).
  cbn [join_nl]. rewrite <- !app_assoc. reflexivity.
Qed.

(** The view of the chain a call returns. *)
Lemma chain_view_of_build (self : ResearchExplorerCrew)
    (topic instructions : pystr) (w : World) :
  exists c w',
    build_crew self topic instructions w = (Ok c, w') /\
    chain_view w' c =
    chain_view (mkWorld (chain_tasks self topic) []) (mkCrew [0; 1; 2; 3; 4]).
Proof.
  rewrite build_crew_result. eexists. eexists. split; [reflexivity|].
  rewrite <- (app_nil_r (map _ (chain_tasks self topic))).
  apply chain_view_relocate, positions_in_chain.
Qed.

(** X1. For every topic that holds no newline character, the description
    of the third task (report) is the template with the topic put in as it
    is between the quotation marks, so it contains the topic verbatim. *)
Theorem report_description_one_line_topic (self : ResearchExplorerCrew)
    (topic instructions : pystr) (w : World) :
  no_newline topic = true ->
  exists c w' v,
    build_crew self topic instructions w = (Ok c, w') /\
    nth_error (chain_view w' c) 2 = Some (Some v) /\
    view_description v =
      join_nl
        [ [];
          lit "Write a complete mini-report for the topic: " ++
            dquote ++ topic ++ dquote ++ lit ".";
          [] ] /\
    contains (view_description v) topic = true.
Proof.
  intros H. destruct (chain_view_of_build self topic instructions w)
    as (c & w' & Hb & Hv).
  exists c, w'. eexists. split; [exact Hb|]. rewrite Hv, chain_view_built.
  split; [reflexivity|]. cbn [view_description].
  split; [apply dedent_report_task_text; exact H|].
  rewrite (report_description_shape topic H). apply contains_app.
Qed.

Lemma report_description_one_line_topic_witness :
  no_newline (lit "Edge Computing") = true /\
  exists c w' v,
    build_crew __init__ (lit "Edge Computing") (lit "Focus on IoT")
      (mkWorld [] []) = (Ok c, w') /\
    nth_error (chain_view w' c) 2 = Some (Some v) /\
    view_description v =
      join_nl
        [ [];
          lit "Write a complete mini-report for the topic: " ++
            dquote ++ lit "Edge Computing" ++ dquote ++ lit ".";
          [] ] /\
    contains (view_description v) (lit "Edge Computing") = true.
Proof.
  split; [reflexivity|].
  apply (report_description_one_line_topic __init__ (lit "Edge Computing")
           (lit "Focus on IoT") (mkWorld [] [])).
  reflexivity.
Defined.

(** X2. Two topics on one line each that give the same description of the
    first task, or the same description of the third task, are the same
    topic: no two one-line topics share a prompt. *)
Theorem descriptions_tell_topics_apart (t1 t2 : pystr) :
  no_newline t1 = true -> no_newline t2 = true ->
  (dedent (topic_task_text t1) = dedent (topic_task_text t2) \/
   dedent (report_task_text t1) = dedent (report_task_text t2)) ->
  t1 = t2.
Proof.
  intros H1 H2 [E|E].
  - rewrite (topic_description_shape t1 H1), (topic_description_shape t2 H2) in E.
    apply app_inv_head in E. apply app_inv_tail in E. exact E.
  - rewrite (report_description_shape t1 H1), (report_description_shape t2 H2) in E.
    apply app_inv_head in E. apply app_inv_tail in E. exact E.
Qed.

Lemma descriptions_tell_topics_apart_witness :
  lit "Edge Computing" = lit "Edge Computing".
Proof.
  exact (descriptions_tell_topics_apart (lit "Edge Computing")
           (lit "Edge Computing") eq_refl eq_refl (or_introl eq_refl)).
Defined.

(** X3. For every topic, on one line or not, the description of the first
    task keeps every character of the topic that is not white space, in
    order and in its place in the template: what [dedent] takes away is
    white space only. *)
Theorem first_description_keeps_content (self : ResearchExplorerCrew)
    (topic instructions : pystr) (w : World) :
  exists d,
    first_description (build_crew self topic instructions w) = Some d /\
    solid d =
      (lit "Breakthetopic" ++ dquote) ++ solid topic ++
      (dquote ++ lit "into4" ++ en_dash ++
       lit "6subtopicswithexplanations.#TopicDecomposition").
Proof.
  eexists. split.
  - rewrite build_crew_result. unfold first_description, deref.
    cbn [tasks map heap]. rewrite nth_error_after. reflexivity.
  - cbn [chain_tasks nth_error option_map map relocate description].
    rewrite dedent_solid, topic_task_text_shape, !solid_app.
    reflexivity.
Qed.

(** X4. For every topic, the description of the first task has four lines
    more than the topic: [dedent] neither joins nor splits lines. *)
Theorem first_description_line_count (self : ResearchExplorerCrew)
    (topic instructions : pystr) (w : World) :
  exists d,
    first_description (build_crew self topic instructions w) = Some d /\
    length (split_nl d) = length (split_nl topic) + 4.
Proof.
  eexists. split.
  - rewrite build_crew_result. unfold first_description, deref.
    cbn [tasks map heap]. rewrite nth_error_after. reflexivity.
  - cbn [chain_tasks nth_error option_map map relocate description].
    rewrite dedent_lines, topic_task_text_shape.
    pose proof (length_split_app
                  (newline :: ind (lit "Break the topic " ++ dquote))
                  (topic ++
                   (dquote ++ lit " into 4" ++ en_dash ++
                    lit "6 subtopics with explanations." ++
                    newline :: newline :: ind (lit "# Topic Decomposition") ++
                    newline :: ind []))) as E1.
    pose proof (length_split_app topic
                  (dquote ++ lit " into 4" ++ en_dash ++
                   lit "6 subtopics with explanations." ++
                   newline :: newline :: ind (lit "# Topic Decomposition") ++
                   newline :: ind [])) as E2.
    assert (L1 : length (split_nl (newline :: ind (lit "Break the topic " ++ dquote))) = 2)
      by (vm_compute; reflexivity).
    assert (L2 : length (split_nl
                  (dquote ++ lit " into 4" ++ en_dash ++
                   lit "6 subtopics with explanations." ++
                   newline :: newline :: ind (lit "# Topic Decomposition") ++
                   newline :: ind [])) = 4)
      by (vm_compute; reflexivity).
    rewrite L1 in E1. rewrite L2 in E2. lia.
Qed.

(** *** The store *)

Lemma refs_older_chain_tasks (self : ResearchExplorerCrew) (topic : pystr) :
  refs_older (chain_tasks self topic).
Proof.
  intros r t Hr u Hu.
  destruct r as [|[|[|[|[|r]]]]]; cbn [chain_tasks nth_error] in Hr;
    try (injection Hr as <-; simpl in Hu; intuition lia).
  destruct r; discriminate.
Qed.

Lemma refs_older_extend (h l : list Task) :
  refs_older h -> refs_older l ->
  refs_older (h ++ map (relocate (length h)) l).
Proof.
  intros Hh Hl r t Hr u Hu.
  destruct (Nat.lt_ge_cases r (length h)) as [Hlt|Hge].
  - rewrite nth_error_app1 in Hr by exact Hlt. exact (Hh r t Hr u Hu).
  - replace r with (length h + (r - length h)) in Hr by lia.
    rewrite nth_error_after, nth_error_map in Hr.
    destruct (nth_error l (r - length h)) as [t0|] eqn:E; [|discriminate].
    injection Hr as <-. rewrite upstream_relocate in Hu.
    apply in_map_iff in Hu. destruct Hu as (j & <- & Hj).
    pose proof (Hl _ _ E j Hj). lia.
Qed.

(** X5. [build_crew] keeps the store well founded: when every reference
    held in the store is to an object allocated earlier, the same holds of
    the store the call leaves, which is five objects longer. *)
Theorem build_crew_keeps_refs_older (self : ResearchExplorerCrew)
    (topic instructions : pystr) (w : World) :
  refs_older (heap w) ->
  exists c w',
    build_crew self topic instructions w = (Ok c, w') /\
    refs_older (heap w') /\
    length (heap w') = length (heap w) + 5.
Proof.
  intros H. rewrite build_crew_result. eexists. eexists.
  split; [reflexivity|]. cbn [heap]. split.
  - apply refs_older_extend; [exact H | apply refs_older_chain_tasks].
  - rewrite length_app, length_map. reflexivity.
Qed.

Lemma refs_older_empty : refs_older [].
Proof. intros r t H. destruct r; discriminate. Qed.

Lemma build_crew_keeps_refs_older_witness :
  exists c w',
    build_crew __init__ (lit "Edge Computing") [] (mkWorld [] []) = (Ok c, w') /\
    refs_older (heap w') /\
    length (heap w') = 5.
Proof.
  exact (build_crew_keeps_refs_older __init__ (lit "Edge Computing") []
           (mkWorld [] []) refs_older_empty).
Defined.

(** *** The orchestrator *)

(** X7. [run] catches nothing and cleans nothing up: when the engine
    raises on the crew that [build_crew] built, [run] raises the same
    exception and returns no dictionary, in exactly the state the engine
    left; so if the engine left the store as it found it, the five tasks
    built for the call are still allocated after the failure. *)
Theorem run_propagates_engine_error (CrewOutput : Type)
    (kickoff : Crew -> M CrewOutput) (str_ : CrewOutput -> pystr)
    (self : ResearchExplorerCrew) (topic instructions : pystr)
    (w w1 w2 : World) (c : Crew) (e : Exn) :
  build_crew self topic instructions w = (Ok c, w1) ->
  kickoff c w1 = (Raised e, w2) ->
  run CrewOutput kickoff str_ self topic instructions w = (Raised e, w2) /\
  (heap w2 = heap w1 ->
   heap w2 =
     heap w ++ map (relocate (length (heap w))) (chain_tasks self topic) /\
   length (heap w2) = length (heap w) + 5).
Proof.
  intros Hb Hk. split.
  - unfold run. unfold bind at 1. rewrite Hb.
    unfold bind. rewrite Hk. reflexivity.
  - intros Hh. pose proof (build_crew_result self topic instructions w) as R.
    rewrite Hb in R. apply (f_equal snd) in R. cbn [snd] in R.
    rewrite R in Hh. cbn [heap] in Hh. rewrite Hh.
    split; [reflexivity|]. rewrite length_app, length_map. reflexivity.
Qed.

Lemma run_propagates_engine_error_witness :
  exists w2,
    run pystr (failing_kickoff (UpstreamExecutionError (lit "quota")))
      str_of_str __init__ (lit "Edge Computing") [] (mkWorld [] []) =
    (Raised (UpstreamExecutionError (lit "quota")), w2) /\
    length (heap w2) = 5 /\
    kickoff_calls (trace w2) = [[0; 1; 2; 3; 4]].
Proof.
  eexists. split.
  - apply (run_propagates_engine_error pystr
             (failing_kickoff (UpstreamExecutionError (lit "quota")))
             str_of_str __init__ (lit "Edge Computing") [] (mkWorld [] [])
             (snd (build_crew __init__ (lit "Edge Computing") [] (mkWorld [] [])))
             _ (mkCrew [0; 1; 2; 3; 4])).
    + reflexivity.
    + reflexivity.
  - split; reflexivity.
Defined.

(** X8. Whatever the engine is, [run] does the same for any two
    instructions strings: the instructions never reach the engine. *)
Theorem run_ignores_instructions (CrewOutput : Type)
    (kickoff : Crew -> M CrewOutput) (str_ : CrewOutput -> pystr)
    (self : ResearchExplorerCrew) (topic i1 i2 : pystr) (w : World) :
  run CrewOutput kickoff str_ self topic i1 w =
  run CrewOutput kickoff str_ self topic i2 w.
Proof.
  unfold run, bind. rewrite !build_crew_result. reflexivity.
Qed.

(** X9. In the chain built on a new instance, the five tasks go to five
    agents with five different roles, in the order of the pipeline, and
    every one of them uses the one shared model configuration, is verbose
    and may not delegate. *)
Theorem build_crew_agents (topic instructions : pystr) (w : World) :
  exists c w',
    build_crew __init__ topic instructions w = (Ok c, w') /\
    map (option_map (fun v => role (view_agent v))) (chain_view w' c) =
      [ Some (lit "Topic Decomposer"); Some (lit "Information Collector");
        Some (lit "Report Writer"); Some (lit "Presentation Designer");
        Some (lit "PPT Content Writer") ] /\
    NoDup (map (option_map view_agent) (chain_view w' c)) /\
    Forall (fun v =>
              exists a, option_map view_agent v = Some a /\
                agent_llm a = llm /\ verbose a = true /\
                allow_delegation a = false)
           (chain_view w' c).
Proof.
  destruct (chain_view_of_build __init__ topic instructions w)
    as (c & w' & Hb & Hv).
  exists c, w'. split; [exact Hb|]. rewrite Hv, chain_view_built.
  cbn [map option_map view_agent].
  split; [reflexivity|]. split.
  - repeat constructor; simpl; intuition discriminate.
  - repeat constructor; eexists; (split; [reflexivity|]); repeat split.
Qed.

End crew_props.

(* ===================================================================== *)
(** ** More on the web request handler *)
(* ===================================================================== *)

Module app_props.
Import PyStr PyStrFacts PyStrProps crewai Runtime crew flask app Observe Probes
  crew_facts app_spec.

Lemma kickoff_calls_app (a b : list Event) :
  kickoff_calls (a ++ b) = kickoff_calls a ++ kickoff_calls b.
Proof.
  induction a as [|e a IH]; simpl; [reflexivity|].
  destruct e; simpl; rewrite IH; reflexivity.
Qed.

Lemma nth_error_first_new (A : Type) (h l : list A) :
  nth_error (h ++ l) (length h) = nth_error l 0.
Proof. induction h as [|x h IH]; simpl; [reflexivity | exact IH]. Qed.

(** A POST for the rule enters the view. *)
Lemma dispatch_request_post (secret_key : option pystr)
    (run : ResearchExplorerCrew -> pystr -> pystr -> M PyDict)
    (request : Request) (w : World) :
  method request = lit "POST" ->
  dispatch_request secret_key run request w =
  bind (index secret_key run request) (fun response => ret (FromView response)) w.
Proof. intros H. unfold dispatch_request. rewrite H. reflexivity. Qed.

(** X10. A request for the rule whose method is not POST reaches neither
    the orchestrator nor the session and changes nothing, whatever the
    form fields hold: GET and HEAD enter [index], which renders the empty
    form; OPTIONS is answered by Flask; every other method is answered
    405 Method Not Allowed, and [index] is not entered. *)
Theorem dispatch_other_methods (secret_key : option pystr)
    (run : ResearchExplorerCrew -> pystr -> pystr -> M PyDict)
    (request : Request) (w : World) :
  method request <> lit "POST" ->
  dispatch_request secret_key run request w =
  (Ok (if pystr_eqb (method request) (lit "GET")
          || pystr_eqb (method request) (lit "HEAD")
       then FromView (Rendered (lit "index.html") [])
       else if pystr_eqb (method request) (lit "OPTIONS")
       then AutomaticOptions
       else MethodNotAllowed),
   w).
Proof.
  intros H. unfold dispatch_request, index.
  assert (E : pystr_eqb (method request) (lit "POST") = false).
  { destruct (pystr_eqb (method request) (lit "POST")) eqn:E; [|reflexivity].
    apply pystr_eqb_eq in E. contradiction. }
  change rule_methods with [lit "HEAD"; lit "GET"; lit "POST"].
  cbn [existsb]. rewrite E, orb_false_r.
  destruct (pystr_eqb (method request) (lit "HEAD")) eqn:Eh;
    destruct (pystr_eqb (method request) (lit "GET")) eqn:Eg;
    try reflexivity.
  cbn [orb]. destruct (pystr_eqb (method request) (lit "OPTIONS")); reflexivity.
Qed.

Lemma dispatch_other_methods_witness :
  dispatch_request None (stub_run [])
    (mkRequest (lit "DELETE") [(lit "topic", lit "Edge Computing")])
    (mkWorld [] []) = (Ok MethodNotAllowed, mkWorld [] []) /\
  dispatch_request None (stub_run [])
    (mkRequest (lit "GET") [(lit "topic", lit "Edge Computing")])
    (mkWorld [] []) =
  (Ok (FromView (Rendered (lit "index.html") [])), mkWorld [] []).
Proof.
  split.
  - apply (dispatch_other_methods None (stub_run [])
             (mkRequest (lit "DELETE") [(lit "topic", lit "Edge Computing")])
             (mkWorld [] [])).
    vm_compute. discriminate.
  - apply (dispatch_other_methods None (stub_run [])
             (mkRequest (lit "GET") [(lit "topic", lit "Edge Computing")])
             (mkWorld [] [])).
    vm_compute. discriminate.
Defined.

(** X11. The handler catches nothing: on a POST with a topic that is not
    blank, when the orchestrator raises, [index] raises the same
    exception in the state the orchestrator left; no page is rendered and
    nothing is flashed. *)
Theorem index_propagates_error (secret_key : option pystr)
    (run : ResearchExplorerCrew -> pystr -> pystr -> M PyDict)
    (request : Request) (w w' : World) (e : Exn) :
  method request = lit "POST" ->
  strip (form_get (form request) (lit "topic") []) <> [] ->
  run __init__
    (strip (form_get (form request) (lit "topic") []))
    (strip (form_get (form request) (lit "instructions") [])) w =
    (Raised e, w') ->
  index secret_key run request w = (Raised e, w').
Proof.
  intros Hm Ht Hr. rewrite (index_nonempty_topic secret_key run request w Hm Ht).
  unfold bind. rewrite Hr. reflexivity.
Qed.

Lemma index_propagates_error_witness :
  index (Some (lit "secret")) (failing_run (UpstreamExecutionError (lit "quota")))
    (mkRequest (lit "POST") [(lit "topic", lit " Edge Computing ")])
    (mkWorld [] []) =
  (Raised (UpstreamExecutionError (lit "quota")),
   mkWorld [] [RunCalled (lit "Edge Computing") []]).
Proof.
  apply (index_propagates_error (Some (lit "secret"))
           (failing_run (UpstreamExecutionError (lit "quota")))
           (mkRequest (lit "POST") [(lit "topic", lit " Edge Computing ")])
           (mkWorld [] [])).
  - reflexivity.
  - vm_compute. discriminate.
  - vm_compute. reflexivity.
Defined.

(** X12. The whole request, with the stub engine behind the real [run]:
    on a POST with a topic that is not blank, the page is rendered with
    the trimmed topic, the trimmed instructions and the dictionary whose
    [full_markdown] is the output of the fifth task; the engine is called
    exactly once, on the five tasks just allocated; the first of them
    carries the trimmed topic; nothing is flashed. *)
Theorem index_end_to_end (secret_key : option pystr)
    (outputs : nat -> pystr)
    (request : Request) (w : World) :
  method request = lit "POST" ->
  strip (form_get (form request) (lit "topic") []) <> [] ->
  exists w',
    index secret_key (run pystr (stub_kickoff outputs) str_of_str) request w =
      (Ok (Rendered (lit "report.html")
             [ (lit "topic",
                VStr (strip (form_get (form request) (lit "topic") [])));
               (lit "instructions",
                VStr (strip (form_get (form request) (lit "instructions") [])));
               (lit "result", VDict [(lit "full_markdown", outputs 4)]) ]),
       w') /\
    kickoff_calls (trace w') =
      kickoff_calls (trace w) ++
      [map (Nat.add (length (heap w))) [0; 1; 2; 3; 4]] /\
    length (heap w') = length (heap w) + 5 /\
    option_map description (deref w' (length (heap w))) =
      Some (dedent (topic_task_text
                      (strip (form_get (form request) (lit "topic") [])))) /\
    flashes (trace w') = flashes (trace w).
Proof.
  intros Hm Ht. rewrite (index_nonempty_topic secret_key _ request w Hm Ht).
  unfold bind at 1. rewrite crew_spec.run_unfold.
  eexists. split; [reflexivity|]. cbn [trace heap]. split; [|split; [|split]].
  - rewrite kickoff_calls_app. reflexivity.
  - rewrite length_app, length_map. reflexivity.
  - unfold deref. cbn [heap]. rewrite nth_error_first_new. reflexivity.
  - rewrite flashes_app. simpl. apply app_nil_r.
Qed.

Lemma index_end_to_end_witness :
  exists w',
    index (Some (lit "secret")) (run pystr (stub_kickoff (fun i => lit "out")) str_of_str)
      (mkRequest (lit "POST")
         [(lit "topic", lit " Edge Computing");
          (lit "instructions", lit "Focus on IoT")])
      (mkWorld [] []) =
      (Ok (Rendered (lit "report.html")
             [ (lit "topic", VStr (lit "Edge Computing"));
               (lit "instructions", VStr (lit "Focus on IoT"));
               (lit "result", VDict [(lit "full_markdown", lit "out")]) ]),
       w') /\
    kickoff_calls (trace w') = [[0; 1; 2; 3; 4]].
Proof.
  destruct (index_end_to_end (Some (lit "secret")) (fun i => lit "out")
              (mkRequest (lit "POST")
                 [(lit "topic", lit " Edge Computing");
                  (lit "instructions", lit "Focus on IoT")])
              (mkWorld [] []) eq_refl)
    as (w' & Hi & Hk & _).
  - vm_compute. discriminate.
  - exists w'. split; [exact Hi | exact Hk].
Defined.

(** X13. What the orchestrator receives is what was submitted without the
    white space at the two ends, and nothing else is taken away: the
    topic field is the received topic between two runs of white space,
    the received topic starts and ends with a character that is not white
    space, and the same holds of the instructions when any are left. *)
Theorem index_passes_trimmed_fields (secret_key : option pystr)
    (result : PyDict)
    (request : Request) (w : World) :
  method request = lit "POST" ->
  strip (form_get (form request) (lit "topic") []) <> [] ->
  exists topic instructions ws1 ws2 ws3 ws4,
    run_calls (trace (snd (index secret_key (stub_run result) request w))) =
      run_calls (trace w) ++ [(topic, instructions)] /\
    form_get (form request) (lit "topic") [] = ws1 ++ topic ++ ws2 /\
    form_get (form request) (lit "instructions") [] =
      ws3 ++ instructions ++ ws4 /\
    forallb isspace (ws1 ++ ws2 ++ ws3 ++ ws4) = true /\
    match topic with [] => false | c :: _ => negb (isspace c) end = true /\
    match rev topic with [] => false | c :: _ => negb (isspace c) end = true /\
    match instructions with [] => true | c :: _ => negb (isspace c) end = true /\
    match rev instructions with [] => true | c :: _ => negb (isspace c) end = true.
Proof.
  intros Hm Ht.
  destruct (strip_split (form_get (form request) (lit "topic") []))
    as (ws1 & ws2 & E1 & H1 & H2).
  destruct (strip_split (form_get (form request) (lit "instructions") []))
    as (ws3 & ws4 & E2 & H3 & H4).
  exists (strip (form_get (form request) (lit "topic") [])),
         (strip (form_get (form request) (lit "instructions") [])),
         ws1, ws2, ws3, ws4.
  rewrite (index_stub_run secret_key result request w Hm Ht). cbn [snd trace].
  rewrite run_calls_app. split; [reflexivity|].
  split; [exact E1|]. split; [exact E2|].
  split; [rewrite !forallb_app, H1, H2, H3, H4; reflexivity|].
  pose proof (strip_head (form_get (form request) (lit "topic") [])) as Hh.
  pose proof (strip_last (form_get (form request) (lit "topic") [])) as Hl.
  split; [|split; [|split]].
  - destruct (strip (form_get (form request) (lit "topic") []));
      [contradiction | exact Hh].
  - destruct (rev (strip (form_get (form request) (lit "topic") []))) eqn:R;
      [|exact Hl].
    apply (f_equal (@rev N)) in R. rewrite rev_involutive in R.
    simpl in R. contradiction.
  - apply strip_head.
  - apply strip_last.
Qed.

Lemma index_passes_trimmed_fields_witness :
  exists topic instructions ws1 ws2,
    run_calls
      (trace (snd (index (Some (lit "secret")) (stub_run [])
                     (mkRequest (lit "POST")
                        [(lit "topic", lit "  Edge Computing ");
                         (lit "instructions", lit "Focus on IoT")])
                     (mkWorld [] [])))) = [(topic, instructions)] /\
    lit "  Edge Computing " = ws1 ++ topic ++ ws2.
Proof.
  destruct (index_passes_trimmed_fields (Some (lit "secret")) []
              (mkRequest (lit "POST")
                 [(lit "topic", lit "  Edge Computing ");
                  (lit "instructions", lit "Focus on IoT")])
              (mkWorld [] []) eq_refl)
    as (t & i & ws1 & ws2 & ws3 & ws4 & Hc & Ht & _).
  - vm_compute. discriminate.
  - exists t, i, ws1, ws2. split; [exact Hc | exact Ht].
Defined.

(** X14. Submitting again what the result page shows changes nothing: a
    POST whose fields are the trimmed topic and the trimmed instructions
    of an accepted request gets the same response, with the same call of
    the orchestrator. *)
Theorem index_resubmission (secret_key : option pystr)
    (result : PyDict) (request : Request) (w : World) :
  method request = lit "POST" ->
  strip (form_get (form request) (lit "topic") []) <> [] ->
  index secret_key (stub_run result)
    (mkRequest (lit "POST")
       [ (lit "topic", strip (form_get (form request) (lit "topic") []));
         (lit "instructions",
          strip (form_get (form request) (lit "instructions") [])) ])
    w =
  index secret_key (stub_run result) request w.
Proof.
  intros Hm Ht.
  rewrite (index_stub_run secret_key result request w Hm Ht).
  rewrite index_stub_run.
  - cbn [form].
    change (form_get
              [ (lit "topic", strip (form_get (form request) (lit "topic") []));
                (lit "instructions",
                 strip (form_get (form request) (lit "instructions") [])) ]
              (lit "topic") [])
      with (strip (form_get (form request) (lit "topic") [])).
    change (form_get
              [ (lit "topic", strip (form_get (form request) (lit "topic") []));
                (lit "instructions",
                 strip (form_get (form request) (lit "instructions") [])) ]
              (lit "instructions") [])
      with (strip (form_get (form request) (lit "instructions") [])).
    rewrite !strip_idempotent. reflexivity.
  - reflexivity.
  - cbn [form].
    change (form_get
              [ (lit "topic", strip (form_get (form request) (lit "topic") []));
                (lit "instructions",
                 strip (form_get (form request) (lit "instructions") [])) ]
              (lit "topic") [])
      with (strip (form_get (form request) (lit "topic") [])).
    rewrite strip_idempotent. exact Ht.
Qed.

Lemma index_resubmission_witness :
  index (Some (lit "secret")) (stub_run [(lit "full_markdown", lit "out")])
    (mkRequest (lit "POST")
       [(lit "topic", lit "Edge Computing");
        (lit "instructions", lit "Focus on IoT")])
    (mkWorld [] []) =
  index (Some (lit "secret")) (stub_run [(lit "full_markdown", lit "out")])
    (mkRequest (lit "POST")
       [(lit "instructions", lit " Focus on IoT  ");
        (lit "topic", [9%N] ++ lit "Edge Computing" ++ [10%N])])
    (mkWorld [] []).
Proof.
  apply (index_resubmission (Some (lit "secret")) [(lit "full_markdown", lit "out")]
           (mkRequest (lit "POST")
              [(lit "instructions", lit " Focus on IoT  ");
               (lit "topic", [9%N] ++ lit "Edge Computing" ++ [10%N])])
           (mkWorld [] [])).
  - reflexivity.
  - vm_compute. discriminate.
Defined.

Lemma no_solid_character (s : pystr) :
  existsb (fun c => negb (isspace c)) s = false -> forallb isspace s = true.
Proof.
  induction s as [|c s IH]; simpl; intros H; [reflexivity|].
  apply orb_false_iff in H. destruct H as [Hc Hs].
  apply negb_false_iff in Hc. rewrite Hc. exact (IH Hs).
Qed.

(** X15. A POST reaches the orchestrator exactly when its topic field,
    the empty string when absent, has a character that is not white
    space: then the orchestrator is invoked once, with the trimmed
    fields, and the result page is rendered; otherwise the orchestrator
    is not invoked and no page is rendered: the request is sent back to
    the form, or fails in [flash] when the application has no secret
    key. *)
Theorem index_accepts_iff_nonblank (secret_key : option pystr)
    (result : PyDict) (request : Request) (w : World) :
  method request = lit "POST" ->
  (existsb (fun c => negb (isspace c))
     (form_get (form request) (lit "topic") []) = true ->
   fst (index secret_key (stub_run result) request w) =
     Ok (Rendered (lit "report.html")
           [ (lit "topic",
              VStr (strip (form_get (form request) (lit "topic") [])));
             (lit "instructions",
              VStr (strip (form_get (form request) (lit "instructions") [])));
             (lit "result", VDict result) ]) /\
   run_calls (trace (snd (index secret_key (stub_run result) request w))) =
     run_calls (trace w) ++
     [ (strip (form_get (form request) (lit "topic") []),
        strip (form_get (form request) (lit "instructions") [])) ]) /\
  (existsb (fun c => negb (isspace c))
     (form_get (form request) (lit "topic") []) = false ->
   fst (index secret_key (stub_run result) request w) =
     (if session_available secret_key then Ok (Redirect (lit "/"))
      else Raised RuntimeError) /\
   run_calls (trace (snd (index secret_key (stub_run result) request w))) =
     run_calls (trace w)).
Proof.
  intros Hm. split; intros H.
  - apply strip_nonblank in H.
    rewrite (index_stub_run secret_key result request w Hm H).
    cbn [fst snd trace]. rewrite run_calls_app. split; reflexivity.
  - apply no_solid_character, strip_blank in H.
    rewrite (index_empty_topic secret_key _ request w Hm H).
    destruct (session_available secret_key); cbn [fst snd trace].
    + split; [reflexivity|]. rewrite run_calls_app. simpl. apply app_nil_r.
    + split; reflexivity.
Qed.

Lemma index_accepts_iff_nonblank_witness :
  run_calls
    (trace (snd (index (Some (lit "secret")) (stub_run [])
                   (mkRequest (lit "POST") [(lit "topic", [32; 120; 160]%N)])
                   (mkWorld [] [])))) = [([120%N], [])] /\
  fst (index (Some (lit "secret")) (stub_run [])
         (mkRequest (lit "POST") [(lit "topic", [32; 160; 10]%N)])
         (mkWorld [] [])) = Ok (Redirect (lit "/")).
Proof.
  split.
  - destruct (index_accepts_iff_nonblank (Some (lit "secret")) []
                (mkRequest (lit "POST") [(lit "topic", [32; 120; 160]%N)])
                (mkWorld [] []) eq_refl) as (H & _).
    destruct (H eq_refl) as (_ & Hr). exact Hr.
  - destruct (index_accepts_iff_nonblank (Some (lit "secret")) []
                (mkRequest (lit "POST") [(lit "topic", [32; 160; 10]%N)])
                (mkWorld [] []) eq_refl) as (_ & H).
    destruct (H eq_refl) as (Hf & _). exact Hf.
Defined.

(** X16. The instructions are optional: on a POST with a topic that is
    not blank and an instructions field that is absent or holds white
    space only, the request is accepted, the orchestrator receives the
    empty string as instructions and the page shows the empty string. *)
Theorem index_optional_instructions (secret_key : option pystr)
    (result : PyDict)
    (request : Request) (w : World) :
  method request = lit "POST" ->
  strip (form_get (form request) (lit "topic") []) <> [] ->
  (dict_get (form request) (lit "instructions") = None \/
   exists v, dict_get (form request) (lit "instructions") = Some v /\
             forallb isspace v = true) ->
  index secret_key (stub_run result) request w =
  (Ok (Rendered (lit "report.html")
         [ (lit "topic",
            VStr (strip (form_get (form request) (lit "topic") [])));
           (lit "instructions", VStr []);
           (lit "result", VDict result) ]),
   mkWorld (heap w)
     (trace w ++
      [RunCalled (strip (form_get (form request) (lit "topic") [])) []])).
Proof.
  intros Hm Ht Hi.
  assert (E : strip (form_get (form request) (lit "instructions") []) = []).
  { rewrite form_get_dict_get. destruct Hi as [-> | (v & -> & Hv)].
    - reflexivity.
    - apply strip_blank. exact Hv. }
  rewrite (index_stub_run secret_key result request w Hm Ht), E. reflexivity.
Qed.

Lemma index_optional_instructions_witness :
  index (Some (lit "secret")) (stub_run [(lit "full_markdown", lit "out")])
    (mkRequest (lit "POST") [(lit "topic", lit "Edge Computing")])
    (mkWorld [] []) =
  (Ok (Rendered (lit "report.html")
         [ (lit "topic", VStr (lit "Edge Computing"));
           (lit "instructions", VStr []);
           (lit "result", VDict [(lit "full_markdown", lit "out")]) ]),
   mkWorld [] [RunCalled (lit "Edge Computing") []]).
Proof.
  apply (index_optional_instructions (Some (lit "secret")) [(lit "full_markdown", lit "out")]
           (mkRequest (lit "POST") [(lit "topic", lit "Edge Computing")])
           (mkWorld [] [])).
  - reflexivity.
  - vm_compute. discriminate.
  - left. reflexivity.
Defined.

End app_props.
